(** * smol_k8s_lab.tui.app_widgets.input_widgets

    A shallow embedding of the two input-row widgets of smol-k8s-lab
    ([SmolK8sLabCollapsibleInputsWidget] and [SmolK8sLabInputsWidget]) and
    the properties of their row construction and change handlers.

    Modelling conventions.
    - Python values that travel through the widgets (YAML scalars, sequences
      and mappings) are the inductive type [pyval]; a [dict] is an
      association list in insertion order with unique keys.
    - A Python [str] is a [string]; its characters are the 8-bit [ascii]
      characters, so [len] is [String.length].
    - Exceptions are values of [exn]; a computation that can raise returns a
      [result].  The change handlers mutate the application's configuration
      and the screen's cache in place: they run in the monad [M], whose state
      survives an exception, as a half-done mutation does in Python.
    - Calls into the terminal-UI framework are recorded.  Mounting, [notify]
      and [bell] are taken not to raise; building an [Input] and
      [validate] raise on a value that is no [str], as [Input_call] and
      [Input_validate] say; [query_one] raises [NoMatches] when [compose]
      yielded no grid.
    - [generate_switch_row] is left out: its only call is commented out. *)

From Stdlib Require Import String Ascii List Bool Arith ZArith Lia.
Import ListNotations.
Local Open Scope string_scope.

(** ** Values, exceptions, results *)

#[local] Set Warnings "-register-all".

Inductive pyval : Type :=
| VNone
| VBool (b : bool)
| VInt (z : Z)
| VStr (s : string)
| VList (l : list pyval)
| VDict (d : list (string * pyval)).

Inductive exn : Type :=
| KeyError (key : string)
| TypeError
| AttributeError
| IndexError
| UnboundLocalError (var : string)
| NoMatches
| ExternalError (msg : string).

Inductive result (A : Type) : Type :=
| Ok (a : A)
| Raise (e : exn).
Arguments Ok {A} a.
Arguments Raise {A} e.

Definition rbind {A B} (r : result A) (k : A -> result B) : result B :=
  match r with
  | Ok a => k a
  | Raise e => Raise e
  end.

Declare Scope result_scope.
Delimit Scope result_scope with result.
Notation "x <- r ;; k" := (rbind r (fun x => k))
  (at level 61, r at next level, right associativity) : result_scope.

(** Python truthiness ([if value:], [if not tooltip:]). *)
Definition truthy (v : pyval) : bool :=
  match v with
  | VNone => false
  | VBool b => b
  | VInt z => negb (Z.eqb z 0)
  | VStr s => negb (String.eqb s "")
  | VList l => match l with [] => false | _ :: _ => true end
  | VDict d => match d with [] => false | _ :: _ => true end
  end.

(** ** Dictionaries *)

Section Dict.
Context {V : Type}.

Fixpoint dict_get (d : list (string * V)) (k : string) : option V :=
  match d with
  | [] => None
  | (k', v) :: rest => if String.eqb k' k then Some v else dict_get rest k
  end.

(** [d[k] = x]: overwrite the binding of [k], or add it at the end. *)
Fixpoint dict_set (d : list (string * V)) (k : string) (x : V)
  : list (string * V) :=
  match d with
  | [] => [(k, x)]
  | (k', v) :: rest =>
      if String.eqb k' k then (k', x) :: rest
      else (k', v) :: dict_set rest k x
  end.
End Dict.

(** [v[k]] for a string key. *)
Definition getitem (v : pyval) (k : string) : result pyval :=
  match v with
  | VDict d =>
      match dict_get d k with
      | Some x => Ok x
      | None => Raise (KeyError k)
      end
  | _ => Raise TypeError
  end.

(** [v[k] = x] for a string key, returning the mutated container. *)
Definition setitem (v : pyval) (k : string) (x : pyval) : result pyval :=
  match v with
  | VDict d => Ok (VDict (dict_set d k x))
  | _ => Raise TypeError
  end.

(** [v[k1][k2]...] *)
Fixpoint get_path (v : pyval) (path : list string) : result pyval :=
  match path with
  | [] => Ok v
  | k :: rest => (child <- getitem v k ;; get_path child rest)%result
  end.

(** In-place mutation [f] of the object reached from [v] along [path]:
    every dictionary on the way is the same object afterwards, holding the
    mutated child. *)
Fixpoint update_path (v : pyval) (path : list string)
         (f : pyval -> result pyval) : result pyval :=
  match path with
  | [] => f v
  | k :: rest =>
      (child <- getitem v k ;;
       child' <- update_path child rest f ;;
       setitem v k child')%result
  end.

(** ** Strings *)

Definition newline : string := String "010"%char EmptyString.

Fixpoint str_map (f : ascii -> ascii) (s : string) : string :=
  match s with
  | EmptyString => EmptyString
  | String c s' => String (f c) (str_map f s')
  end.

(** [s.replace(a, b)] for one-character [a] and [b]. *)
Definition str_replace (a b : ascii) (s : string) : string :=
  str_map (fun c => if Ascii.eqb c a then b else c) s.

Definition ascii_upper (c : ascii) : ascii :=
  let n := nat_of_ascii c in
  if ((97 <=? n) && (n <=? 122))%nat then ascii_of_nat (n - 32) else c.

(** [s.upper()] *)
Definition str_upper (s : string) : string := str_map ascii_upper s.

(** [c in s] for a one-character [c]. *)
Fixpoint str_contains (c : ascii) (s : string) : bool :=
  match s with
  | EmptyString => false
  | String c' s' => Ascii.eqb c' c || str_contains c s'
  end.

(** [x in l] for a list of strings. *)
Definition str_in (x : string) (l : list string) : bool :=
  existsb (String.eqb x) l.

Fixpoint all_strs (l : list pyval) : option (list string) :=
  match l with
  | [] => Some []
  | VStr s :: rest =>
      match all_strs rest with
      | Some ss => Some (s :: ss)
      | None => None
      end
  | _ :: _ => None
  end.

(** [sep.join(l)]: every item of [l] has to be a [str]. *)
Definition str_join (sep : string) (l : list pyval) : result string :=
  match all_strs l with
  | Some ss => Ok (String.concat sep ss)
  | None => Raise TypeError
  end.

(** ** Collaborators outside this module *)

(** [smol_k8s_lab.tui.util], of which the widgets import
    [create_sanitized_list]. *)
Module Util.

(** White space of [str.strip()] among the ASCII characters. *)
Definition is_space (c : ascii) : bool :=
  let n := nat_of_ascii c in
  (Nat.eqb n 32 || ((9 <=? n) && (n <=? 13)))%nat%bool.

(** [s.split(",")] *)
Fixpoint split_commas (s : string) : list string :=
  match s with
  | EmptyString => [EmptyString]
  | String c s' =>
      if Ascii.eqb c ","%char then EmptyString :: split_commas s'
      else match split_commas s' with
           | h :: t => String c h :: t
           | [] => [String c EmptyString]
           end
  end.

Fixpoint lstrip (s : string) : string :=
  match s with
  | EmptyString => EmptyString
  | String c s' => if is_space c then lstrip s' else s
  end.

Fixpoint rstrip (s : string) : string :=
  match s with
  | EmptyString => EmptyString
  | String c s' =>
      let r := rstrip s' in
      if is_space c && String.eqb r "" then EmptyString else String c r
  end.

Definition strip (s : string) : string := rstrip (lstrip s).

(** Modelled from the spec: [create_sanitized_list], which the widgets
    import and whose source lies outside this module.  The spec gives it as
    "split on commas, trim each element, and drop empty elements". *)
Definition create_sanitized_list (input_value : string) : list string :=
  filter (fun x => negb (String.eqb x ""))
         (map strip (split_commas input_value)).

End Util.

(** The helpers that the widgets only import:
    [placeholder_grammar] ([smol_k8s_lab.tui.util]) turns a label into a
    phrase, [extract_secret] ([smol_k8s_lab.utils.value_from]) resolves a
    secret reference and may raise. *)
Class Collaborators : Type := {
  placeholder_grammar : string -> string;
  extract_secret : list (string * pyval) -> result string
}.

(** ** The framework's widgets, as far as the module uses them *)

(** [textual.widgets.Input]; [V] is the type of the value it holds:
    whatever [generate_input_row] passed when the widget is built, a [str]
    once it reports edits. *)
Record Input (V : Type) : Type := mkInput {
  placeholder : string;
  name : string;
  id : string;
  password : bool;
  value : V;
  tooltip : string
}.
Arguments mkInput {V}.
Arguments placeholder {V}.
Arguments name {V}.
Arguments id {V}.
Arguments password {V}.
Arguments value {V}.
Arguments tooltip {V}.

(** The dictionary [input_keys]: ["password"] and ["value"] may be missing,
    ["validators"] is always [[Length(minimum=2)]]. *)
Record input_keys : Type := mkKeys {
  ik_placeholder : string;
  ik_name : string;
  ik_id : string;
  ik_password : option bool;
  ik_value : option pyval
}.

(** The call of [Input] with the keywords [input_keys]: a missing ["password"] is the widget's default
    [False]; a missing ["value"] leaves the widget without initial value. *)
Definition Input_of_keys (k : input_keys) : Input (option pyval) :=
  {| placeholder := ik_placeholder k;
     name := ik_name k;
     id := ik_id k;
     password := match ik_password k with Some b => b | None => false end;
     value := ik_value k;
     tooltip := "" |}.

(** [textual.widgets.Input] is written for a [str]: given anything else
    than a [str] or [None] as [value] it raises while it sets itself up,
    [AttributeError] for a number or a boolean that counts as true,
    [TypeError] for one that counts as false and for a sequence or a
    mapping. *)
Definition Input_takes (v : pyval) : result unit :=
  match v with
  | VNone | VStr _ => Ok tt
  | VBool _ | VInt _ =>
      if truthy v then Raise AttributeError else Raise TypeError
  | VList _ | VDict _ => Raise TypeError
  end.

(** The call of [Input] with the keywords [input_keys]. *)
Definition Input_call (k : input_keys) : result (Input (option pyval)) :=
  match ik_value k with
  | Some v => rbind (Input_takes v) (fun _ => Ok (Input_of_keys k))
  | None => Ok (Input_of_keys k)
  end.

(** [input.validate(value)]: the validator [Length(minimum=2)] takes
    [len(value)], which [None], a boolean and a number do not have. *)
Definition Input_validate (v : pyval) : result unit :=
  match v with
  | VNone | VBool _ | VInt _ => Raise TypeError
  | VStr _ | VList _ | VDict _ => Ok tt
  end.

Definition set_tooltip {V} (i : Input V) (t : string) : Input V :=
  {| placeholder := placeholder i; name := name i; id := id i;
     password := password i; value := value i; tooltip := t |}.

(** [input_keys['password']] *)
Definition keys_password (k : input_keys) : result bool :=
  match ik_password k with
  | Some b => Ok b
  | None => Raise (KeyError "password")
  end.

(** The row [Grid(Label(f"{key_label}:"), input)], with the value that
    [input.validate] was given and took. *)
Record Row : Type := mkRow {
  row_label : string;
  row_input : Input (option pyval);
  row_validated : pyval
}.

Inductive Mounted : Type :=
| MountedRow (r : Row)
| MountedButton (label : string).

(** The texts of the module. *)
Definition env_var_tooltip (env_var : string) : string :=
  "To avoid needing to fill in this value manually, you can export $"
  ++ env_var ++ " as an environment variable.".

Definition s3_provider_tooltip : string :=
  "Choose between minio and seaweedfs for a local s3 provider".

Definition metallb_suffix : string :=
  " Be sure the ip addresses you enter already have DNS entries for any apps you'd like to deploy.".

Definition new_field_label : string := "➕ new field".

(** [tooltips.get(key, None)] is [None] or a [str]; this is its truth
    value. *)
Definition tooltip_truthy (t : option string) : bool :=
  match t with
  | Some s => negb (String.eqb s "")
  | None => false
  end.

Definition tooltip_text (t : option string) : string :=
  match t with
  | Some s => s
  | None => ""
  end.

Definition with_password (k : input_keys) (b : bool) : input_keys :=
  {| ik_placeholder := ik_placeholder k; ik_name := ik_name k;
     ik_id := ik_id k; ik_password := Some b; ik_value := ik_value k |}.

Definition with_value (k : input_keys) (v : pyval) : input_keys :=
  {| ik_placeholder := ik_placeholder k; ik_name := ik_name k;
     ik_id := ik_id k; ik_password := ik_password k; ik_value := Some v |}.

Notation "' p <- r ;; k" := (rbind r (fun x => match x with p => k end))
  (at level 61, p pattern, r at next level, right associativity)
  : result_scope.

(** ** The application and the screen the handlers write to *)

Inductive effect : Type :=
| WriteYaml (document : pyval)
| Bell
| Notify (message severity title : string)
| Log (message : string).

(** [self.app.cfg], [self.app.bell_on_error] and
    [self.screen.sensitive_values]. *)
Record tui : Type := mkTui {
  cfg : pyval;
  bell_on_error : bool;
  sensitive_values : pyval
}.

(** A handler runs from a state to an outcome, the state it leaves and the
    effects it asked for, in order. *)
Definition M (A : Type) : Type := tui -> result A * tui * list effect.

Definition ret {A} (a : A) : M A := fun st => (Ok a, st, []).

Definition bind {A B} (m : M A) (k : A -> M B) : M B :=
  fun st =>
    match m st with
    | (Ok a, st', out) =>
        match k a st' with
        | (r, st'', out') => (r, st'', (out ++ out')%list)
        end
    | (Raise e, st', out) => (Raise e, st', out)
    end.

Declare Scope handler_scope.
Delimit Scope handler_scope with handler.
Notation "x <- m ;; k" := (bind m (fun x => k))
  (at level 61, m at next level, right associativity) : handler_scope.
Notation "m ;; k" := (bind m (fun _ => k))
  (at level 61, right associativity) : handler_scope.

Definition emit (e : effect) : M unit := fun st => (Ok tt, st, [e]).

(** [self.app.cfg[k1][k2]...] *)
Definition cfg_lookup (path : list string) : M pyval :=
  fun st => (get_path (cfg st) path, st, []).

(** [self.app.cfg[k1][k2]...[key] = x] *)
Definition cfg_assign (path : list string) (key : string) (x : pyval)
  : M unit :=
  fun st =>
    match update_path (cfg st) path (fun d => setitem d key x) with
    | Ok c =>
        (Ok tt,
         {| cfg := c; bell_on_error := bell_on_error st;
            sensitive_values := sensitive_values st |}, [])
    | Raise e => (Raise e, st, [])
    end.

(** [self.screen.sensitive_values[owner][key] = x] *)
Definition sensitive_assign (owner key : string) (x : pyval) : M unit :=
  fun st =>
    match update_path (sensitive_values st) [owner]
                      (fun d => setitem d key x) with
    | Ok s =>
        (Ok tt,
         {| cfg := cfg st; bell_on_error := bell_on_error st;
            sensitive_values := s |}, [])
    | Raise e => (Raise e, st, [])
    end.

(** [self.app.write_yaml()] persists the document as it is at the call. *)
Definition write_yaml : M unit := fun st => (Ok tt, st, [WriteYaml (cfg st)]).

Definition get_bell_on_error : M bool :=
  fun st => (Ok (bell_on_error st), st, []).

(** [textual.validation.ValidationResult] *)
Record ValidationResult : Type := mkValidation {
  is_valid : bool;
  failure_descriptions : list string
}.

(** [Input.Changed] *)
Record InputChanged : Type := mkInputChanged {
  input : Input string;
  validation_result : ValidationResult
}.

(** [Switch.Changed]: [event.switch.name] and [event.value]. *)
Record SwitchChanged : Type := mkSwitchChanged {
  switch_name : string;
  switch_value : bool
}.

(** The validator every row gets, [Length(minimum=2)]: a value passes when
    it has at least [minimum] characters. *)
Definition Length_passes (minimum : nat) (v : string) : bool :=
  (minimum <=? String.length v)%nat.

Definition validation_error_title : string :=
  "⚠️ Input Validation Error" ++ newline.

Definition recursion_notice : string :=
  "💡Make sure Argo CD directory recursion is switched on.".

(** ** class SmolK8sLabCollapsibleInputsWidget *)

Module Collapsible.

Record t : Type := mk {
  app_name : string;
  title : string;
  collapsible_id : string;
  inputs : list (string * pyval);
  tooltips : list (string * string);
  add_fields_button : bool
}.

Section Methods.
Context `{Collaborators}.

Definition generate_input_row (self : t) (key : string) (value : pyval)
  : result Row :=
  let key_label := str_replace "_" " " key in
  let placeholder_txt := placeholder_grammar key_label in
  let input_keys :=
    {| ik_placeholder := placeholder_txt;
       ik_name := key;
       ik_id := String.concat "-" [app_name self; key; "input"];
       ik_password := None;
       ik_value := None |} in
  ('(input_keys, value) <-
     (if truthy value then
        ('(input_keys, value) <-
           match value with
           | VList l =>
               (sequence_value <-
                  match l with
                  | VStr _ :: _ => str_join ", " l
                  | VList inner :: _ => str_join ", " inner
                  | _ :: _ => Raise (UnboundLocalError "sequence_value")
                  | [] => Raise IndexError
                  end ;;
                Ok (with_password input_keys false, VStr sequence_value))
           | VDict d =>
               let input_keys := with_password input_keys true in
               (secret <- extract_secret d ;;
                Ok (input_keys, VStr secret))
           | _ => Ok (with_password input_keys false, value)
           end ;;
         Ok (with_value input_keys value, value))
      else Ok (input_keys, value)) ;;
   input <- Input_call input_keys ;;
   let tooltip := dict_get (tooltips self) key in
   tooltip <-
     (if negb (tooltip_truthy tooltip) then
        (pw <- keys_password input_keys ;;
         if (pw : bool) then
           let env_var :=
             String.concat "_" [str_upper (app_name self); str_upper key] in
           Ok (env_var_tooltip env_var)
         else if String.eqb key "s3_provider" then Ok s3_provider_tooltip
         else Ok (placeholder_txt ++ "."))
      else Ok (tooltip_text tooltip)) ;;
   let tooltip :=
     if String.eqb (app_name self) "metallb"
     then tooltip ++ metallb_suffix else tooltip in
   let input := set_tooltip input tooltip in
   checked <- Input_validate value ;;
   Ok {| row_label := key_label ++ ":";
         row_input := input;
         row_validated := value |})%result.

Definition generate_row (self : t) (key : string) (value : pyval)
  : result Row :=
  generate_input_row self key value.

(** [compose] yields the grid only [if self.inputs]. *)
Definition compose_yields_grid (self : t) : bool :=
  truthy (VDict (inputs self)).

(** [self.query_one(".collapsible-updateable-grid")] *)
Definition query_grid (self : t) : result unit :=
  if compose_yields_grid self then Ok tt else Raise NoMatches.

(** [for key, value in self.inputs.items(): grid.mount(...)] *)
Fixpoint mount_rows (self : t) (items : list (string * pyval))
  : result (list Mounted) :=
  match items with
  | [] => Ok []
  | (key, value) :: rest =>
      (row <- generate_row self key value ;;
       rows <- mount_rows self rest ;;
       Ok (MountedRow row :: rows))%result
  end.

(** What the grid holds after [on_mount]. *)
Definition on_mount (self : t) : result (list Mounted) :=
  (_ <- query_grid self ;;
   rows <- (if truthy (VDict (inputs self))
            then mount_rows self (inputs self) else Ok []) ;;
   Ok (rows ++ (if add_fields_button self
                then [MountedButton new_field_label] else []))%list)%result.

Definition input_validation (self : t) (event : InputChanged) : M unit :=
  if is_valid (validation_result event) then
    let input := input event in
    let values_path := ["apps"; app_name self; "init"; "values"] in
    (parent_yaml <- cfg_lookup values_path ;;
     if is_valid (validation_result event) then
       let password' := password input in
       (if str_in (app_name self) ["metallb"; "vouch"]
           || str_contains ","%char (value input)
        then cfg_assign values_path (name input)
               (VList (map VStr (Util.create_sanitized_list (value input))))
        else if negb password'
             then cfg_assign values_path (name input) (VStr (value input))
             else ret tt) ;;
       if negb (password input) then write_yaml
       else
         emit (Log ("saving special value for " ++ name input
                    ++ " to screen cache")) ;;
         sensitive_assign (app_name self) (name input)
                          (VStr (value input))
     else ret tt)%handler
  else
    (bell <- get_bell_on_error ;;
     (if (bell : bool) then emit Bell else ret tt) ;;
     emit (Notify (String.concat newline
                     (failure_descriptions (validation_result event)))
                  "warning" validation_error_title))%handler.

Definition update_base_yaml_for_switch (self : t) (event : SwitchChanged)
  : M unit :=
  let truthy := switch_value event in
  (cfg_assign ["apps"; app_name self; "init"] (switch_name event)
              (VBool truthy) ;;
   write_yaml ;;
   if truthy && String.eqb (switch_name event) "create_minio_tenant"
   then emit (Notify recursion_notice "information" "")
   else ret tt)%handler.

End Methods.

End Collapsible.

(** ** class SmolK8sLabInputsWidget *)

Module Flat.

Record t : Type := mk {
  app_name : string;
  title : string;
  id : string;
  inputs : list (string * pyval);
  tooltips : list (string * string);
  add_fields_button : bool
}.

Section Methods.
Context `{Collaborators}.

Definition generate_input_row (self : t) (key : string) (value : pyval)
  : result Row :=
  let key_label := str_replace "_" " " key in
  let placeholder_txt := placeholder_grammar key_label in
  let input_keys :=
    {| ik_placeholder := placeholder_txt;
       ik_name := key;
       ik_id := String.concat "-" [app_name self; key; "input"];
       ik_password := Some false;
       ik_value := None |} in
  ('(input_keys, value) <-
     (if truthy value then
        match value with
        | VList l =>
            (sequence_value <-
               match l with
               | VStr _ :: _ => str_join ", " l
               | VList inner :: _ => str_join ", " inner
               | _ :: _ => Raise (UnboundLocalError "sequence_value")
               | [] => Raise IndexError
               end ;;
             Ok (input_keys, VStr sequence_value))
        | VDict d =>
            let input_keys := with_password input_keys true in
            (secret <- extract_secret d ;;
             Ok (input_keys, VStr secret))
        | _ => Ok (input_keys, value)
        end
      else Ok (input_keys, value)) ;;
   let input_keys := with_value input_keys value in
   input <- Input_call input_keys ;;
   let tooltip := dict_get (tooltips self) key in
   tooltip <-
     (if negb (tooltip_truthy tooltip) then
        (pw <- keys_password input_keys ;;
         if (pw : bool) then
           let env_var :=
             String.concat "_" [str_upper (app_name self); str_upper key] in
           Ok (env_var_tooltip env_var)
         else if String.eqb key "s3_provider" then Ok s3_provider_tooltip
         else Ok (placeholder_txt ++ "."))
      else Ok (tooltip_text tooltip)) ;;
   let tooltip :=
     if String.eqb (app_name self) "metallb"
     then tooltip ++ metallb_suffix else tooltip in
   let input := set_tooltip input tooltip in
   checked <- Input_validate value ;;
   Ok {| row_label := key_label ++ ":";
         row_input := input;
         row_validated := value |})%result.

Definition generate_row (self : t) (key : string) (value : pyval)
  : result Row :=
  generate_input_row self key value.

(** [compose] always yields the label and the grid. *)
Definition compose_yields_grid (self : t) : bool := true.

(** [self.query_one(".collapsible-updateable-grid")] *)
Definition query_grid (self : t) : result unit :=
  if compose_yields_grid self then Ok tt else Raise NoMatches.

(** [for key, value in self.inputs.items():] with the key
    ["trusted_key_servers"] ignored. *)
Fixpoint mount_rows (self : t) (items : list (string * pyval))
  : result (list Mounted) :=
  match items with
  | [] => Ok []
  | (key, value) :: rest =>
      if negb (String.eqb key "trusted_key_servers") then
        (row <- generate_row self key value ;;
         rows <- mount_rows self rest ;;
         Ok (MountedRow row :: rows))%result
      else mount_rows self rest
  end.

(** What the grid holds after [on_mount]. *)
Definition on_mount (self : t) : result (list Mounted) :=
  (_ <- query_grid self ;;
   rows <- (if truthy (VDict (inputs self))
            then mount_rows self (inputs self) else Ok []) ;;
   Ok (rows ++ (if add_fields_button self
                then [MountedButton new_field_label] else []))%list)%result.

Definition input_validation (self : t) (event : InputChanged) : M unit :=
  if is_valid (validation_result event) then
    let input := input event in
    let values_path := ["apps"; app_name self; "init"; "values"] in
    (parent_yaml <- cfg_lookup values_path ;;
     if is_valid (validation_result event) then
       let password' := password input in
       (if str_in (app_name self) ["metallb"; "vouch"]
           || str_contains ","%char (value input)
        then cfg_assign values_path (name input)
               (VList (map VStr (Util.create_sanitized_list (value input))))
        else if negb password'
             then cfg_assign values_path (name input) (VStr (value input))
             else ret tt) ;;
       if negb (password input) then write_yaml
       else
         emit (Log ("saving special value for " ++ name input
                    ++ " to screen cache")) ;;
         sensitive_assign (app_name self) (name input)
                          (VStr (value input))
     else ret tt)%handler
  else
    (bell <- get_bell_on_error ;;
     (if (bell : bool) then emit Bell else ret tt) ;;
     emit (Notify (String.concat newline
                     (failure_descriptions (validation_result event)))
                  "warning" validation_error_title))%handler.

Definition update_base_yaml_for_switch (self : t) (event : SwitchChanged)
  : M unit :=
  let truthy := switch_value event in
  (cfg_assign ["apps"; app_name self; "init"] (switch_name event)
              (VBool truthy) ;;
   write_yaml ;;
   if truthy && String.eqb (switch_name event) "create_minio_tenant"
   then emit (Notify recursion_notice "information" "")
   else ret tt)%handler.

End Methods.

End Flat.

(** A stand-in for the two imported helpers, to run the rows on concrete
    inputs: the phrase is "Please enter a <label>", and a secret reference
    [{value_from: {env: NAME}}] resolves to the text of [NAME] in a fixed
    environment. *)
Definition sample_environment : list (string * string) :=
  [("NEXTCLOUD_ADMIN_PASSWORD", "hunter2")].

Definition sample_collaborators : Collaborators :=
  {| placeholder_grammar := fun label => "Please enter a " ++ label;
     extract_secret := fun d =>
       match get_path (VDict d) ["value_from"; "env"] with
       | Ok (VStr variable) =>
           match dict_get sample_environment variable with
           | Some text => Ok text
           | None => Raise (ExternalError "variable not set")
           end
       | _ => Raise (ExternalError "no secret source")
       end |}.

(** A document with a section for [owner], as the data model gives it:
    [{apps: {owner: {init: {enabled: true, values: vals}}}}]. *)
Definition sample_cfg (owner : string) (vals : list (string * pyval)) : pyval :=
  VDict [("apps",
          VDict [(owner,
                  VDict [("init",
                          VDict [("enabled", VBool true);
                                 ("values", VDict vals)])])])].

Definition sample_tui (owner : string) (vals : list (string * pyval)) : tui :=
  {| cfg := sample_cfg owner vals;
     bell_on_error := true;
     sensitive_values := VDict [(owner, VDict [])] |}.

(** What a valid edit of a field that is not a password input stores. *)
Definition plain_stored (owner v : string) : pyval :=
  if str_in owner ["metallb"; "vouch"] || str_contains ","%char v
  then VList (map VStr (Util.create_sanitized_list v))
  else VStr v.


(** ** Help text, as the specification words it *)

Section HelpText.
Context `{Collaborators}.

(** The text made up when no tooltip is taken from the mapping. *)
Definition generated_help (owner key : string) (sensitive : bool) : string :=
  if sensitive
  then env_var_tooltip (str_upper owner ++ "_" ++ str_upper key)
  else if String.eqb key "s3_provider" then s3_provider_tooltip
       else placeholder_grammar (str_replace "_" " " key) ++ ".".

Definition with_dns_warning (owner text : string) : string :=
  if String.eqb owner "metallb" then text ++ metallb_suffix else text.

(** The order of resolution with "the explicit tooltip from
    [tooltips[key]] when present" read as: whenever the mapping has the
    key. *)
Definition help_text_when_present (owner : string)
           (tooltips : list (string * string)) (key : string)
           (sensitive : bool) : string :=
  with_dns_warning owner
    match dict_get tooltips key with
    | Some t => t
    | None => generated_help owner key sensitive
    end.

(** The same order, with an empty tooltip counted as none. *)
Definition help_text (owner : string)
           (tooltips : list (string * string)) (key : string)
           (sensitive : bool) : string :=
  with_dns_warning owner
    match dict_get tooltips key with
    | Some t =>
        if String.eqb t "" then generated_help owner key sensitive else t
    | None => generated_help owner key sensitive
    end.
End HelpText.

(** ** Sample widgets and events *)

Definition sample_collapsible (owner : string)
           (inputs : list (string * pyval))
           (tooltips : list (string * string)) : Collapsible.t :=
  Collapsible.mk owner "Init values" (owner ++ "-init-inputs")
                 inputs tooltips false.

Definition sample_flat (owner : string)
           (inputs : list (string * pyval))
           (tooltips : list (string * string)) : Flat.t :=
  Flat.mk owner "Init values" (owner ++ "-init-inputs")
          inputs tooltips false.

(** The [Input.Changed] event of the input named [key] of [owner], edited to
    [text], with the verdict of [Length(minimum=2)]. *)
Definition sample_edit (owner key : string) (sensitive : bool)
           (text : string) (descriptions : list string) : InputChanged :=
  {| input :=
       {| placeholder := ""; name := key;
          id := String.concat "-" [owner; key; "input"];
          password := sensitive; value := text; tooltip := "" |};
     validation_result :=
       {| is_valid := Length_passes 2 text;
          failure_descriptions :=
            if Length_passes 2 text then [] else descriptions |} |}.

(** The row of the key "admin_password" of "nextcloud", given as the
    reference [{value_from: {env: NEXTCLOUD_ADMIN_PASSWORD}}], under
    [sample_collaborators] and without tooltips. *)
Definition sample_secret_row : Row :=
  {| row_label := "admin password:";
     row_input :=
       {| placeholder := "Please enter a admin password";
          name := "admin_password";
          id := "nextcloud-admin_password-input";
          password := true;
          value := Some (VStr "hunter2");
          tooltip :=
            "To avoid needing to fill in this value manually, you can export $NEXTCLOUD_ADMIN_PASSWORD as an environment variable." |};
     row_validated := VStr "hunter2" |}.

(** ** Reading a run of a handler *)

Definition outcome {A} (run : result A * tui * list effect) : result A :=
  fst (fst run).

Definition final {A} (run : result A * tui * list effect) : tui :=
  snd (fst run).

Definition emitted {A} (run : result A * tui * list effect) : list effect :=
  snd run.

Definition is_write (e : effect) : bool :=
  match e with
  | WriteYaml _ => true
  | _ => false
  end.

(** A document whose [init.values] of [owner] is [values], with a cache
    [cache]. *)
Definition sample_cfg_of (owner : string) (values : pyval) : pyval :=
  VDict [("apps",
          VDict [(owner,
                  VDict [("init",
                          VDict [("enabled", VBool true);
                                 ("values", values)])])])].

Definition sample_tui_of (owner : string) (values cache : pyval) : tui :=
  {| cfg := sample_cfg_of owner values;
     bell_on_error := true;
     sensitive_values := cache |}.

(** A text. *)
Definition is_str (v : pyval) : bool :=
  match v with
  | VStr _ => true
  | _ => false
  end.

(** A YAML scalar: neither a sequence nor a mapping. *)
Definition is_scalar (v : pyval) : bool :=
  match v with
  | VList _ | VDict _ => false
  | _ => true
  end.

(** The inputs the flat class renders: all but "trusted_key_servers". *)
Definition rendered_by_flat (items : list (string * pyval))
  : list (string * pyval) :=
  filter (fun item => negb (String.eqb (fst item) "trusted_key_servers")) items.

(** The button "new field", when the widget is to have one. *)
Definition trailing_button (wanted : bool) : list Mounted :=
  if wanted then [MountedButton new_field_label] else [].

(** The row of the key "admin_user" of "nextcloud" with the value "admin",
    under [sample_collaborators] and without tooltips. *)
Definition sample_user_row : Row :=
  {| row_label := "admin user:";
     row_input :=
       {| placeholder := "Please enter a admin user";
          name := "admin_user";
          id := "nextcloud-admin_user-input";
          password := false;
          value := Some (VStr "admin");
          tooltip := "Please enter a admin user." |};
     row_validated := VStr "admin" |}.

(** An item that [create_sanitized_list] hands back as it is: not empty,
    without comma, without white space at either end. *)
Definition is_clean_item (s : string) : bool :=
  negb (String.eqb s "")
  && negb (str_contains ","%char s)
  && String.eqb (Util.strip s) s.
(** * Properties *)

(** ** Dictionaries and paths *)

Lemma dict_get_set_same {V} (d : list (string * V)) k x :
  dict_get (dict_set d k x) k = Some x.
Proof.
  induction d as [|[k' v] rest IH]; simpl.
  - now rewrite String.eqb_refl.
  - destruct (String.eqb k' k) eqn:E; simpl; rewrite E; auto.
Qed.

Lemma dict_get_set_other {V} (d : list (string * V)) k k' x :
  k <> k' -> dict_get (dict_set d k x) k' = dict_get d k'.
Proof.
  intros Hne.
  induction d as [|[k0 v] rest IH]; simpl.
  - destruct (String.eqb_spec k k'); [contradiction | reflexivity].
  - destruct (String.eqb_spec k0 k) as [->|Hk0]; simpl.
    + destruct (String.eqb_spec k k'); [contradiction | reflexivity].
    + destruct (String.eqb_spec k0 k'); [reflexivity | exact IH].
Qed.

Lemma getitem_dict v k x :
  getitem v k = Ok x -> exists d, v = VDict d /\ dict_get d k = Some x.
Proof.
  destruct v; simpl; try discriminate.
  destruct (dict_get d k) eqn:E; intros [=]; subst; eauto.
Qed.

(** An assignment below a path that resolves succeeds, and the path then
    resolves to the dictionary with the new binding. *)
Lemma update_path_assign path : forall v d k x,
  get_path v path = Ok (VDict d) ->
  exists v',
    update_path v path (fun o => setitem o k x) = Ok v' /\
    get_path v' path = Ok (VDict (dict_set d k x)).
Proof.
  induction path as [|k0 rest IH]; intros v d k x Hget; simpl in *.
  - injection Hget as ->. simpl. eauto.
  - destruct (getitem v k0) as [child|e] eqn:Hchild; simpl in Hget;
      [|discriminate].
    destruct (IH child d k x Hget) as (child' & Hup & Hget').
    simpl. rewrite Hup. simpl.
    destruct (getitem_dict _ _ _ Hchild) as (d0 & -> & _). simpl.
    eexists; split; [reflexivity|].
    simpl. rewrite dict_get_set_same. simpl. exact Hget'.
Qed.

Lemma get_path_app v p q w :
  get_path v p = Ok w -> get_path v (p ++ q) = get_path w q.
Proof.
  revert v. induction p as [|k rest IH]; intros v; simpl.
  - now intros [= ->].
  - destruct (getitem v k); simpl; [apply IH | discriminate].
Qed.

(** The new binding can be read back through the whole path. *)
Lemma update_path_assign_read path v d k x :
  get_path v path = Ok (VDict d) ->
  exists v',
    update_path v path (fun o => setitem o k x) = Ok v' /\
    get_path v' (path ++ [k]) = Ok x.
Proof.
  intros Hget.
  destruct (update_path_assign path v d k x Hget) as (v' & Hup & Hget').
  exists v'; split; [exact Hup|].
  rewrite (get_path_app _ _ [k] _ Hget'). simpl.
  now rewrite dict_get_set_same.
Qed.

(** ** The change handlers *)

(** Both classes spell the two handlers alike. *)
Lemma input_validation_agree (c : Collapsible.t) (f : Flat.t) ev st :
  Flat.app_name f = Collapsible.app_name c ->
  Flat.input_validation f ev st = Collapsible.input_validation c ev st.
Proof.
  intros Happ. unfold Flat.input_validation, Collapsible.input_validation.
  rewrite Happ. reflexivity.
Qed.

Lemma update_base_yaml_for_switch_agree (c : Collapsible.t) (f : Flat.t) ev st :
  Flat.app_name f = Collapsible.app_name c ->
  Flat.update_base_yaml_for_switch f ev st
  = Collapsible.update_base_yaml_for_switch c ev st.
Proof.
  intros Happ.
  unfold Flat.update_base_yaml_for_switch,
    Collapsible.update_base_yaml_for_switch.
  rewrite Happ. reflexivity.
Qed.

(** A valid edit of a field that is not a password input: the value goes
    under [init.values], then the document is written once, as it is after
    the assignment; the cache is not touched. *)
Lemma plain_edit_run (c : Collapsible.t) ev st vals :
  is_valid (validation_result ev) = true ->
  password (input ev) = false ->
  get_path (cfg st) ["apps"; Collapsible.app_name c; "init"; "values"]
  = Ok (VDict vals) ->
  exists doc,
    Collapsible.input_validation c ev st
    = (Ok tt,
       {| cfg := doc; bell_on_error := bell_on_error st;
          sensitive_values := sensitive_values st |},
       [WriteYaml doc]) /\
    get_path doc ["apps"; Collapsible.app_name c; "init"; "values";
                  name (input ev)]
    = Ok (plain_stored (Collapsible.app_name c) (value (input ev))).
Proof.
  intros Hvalid Hpw Hget.
  destruct (update_path_assign_read _ _ _ (name (input ev))
              (plain_stored (Collapsible.app_name c) (value (input ev))) Hget)
    as (doc & Hup & Hread).
  exists doc. split; [|exact Hread].
  unfold Collapsible.input_validation, bind, cfg_lookup.
  rewrite Hvalid, Hget, Hpw.
  unfold plain_stored in Hup.
  destruct (str_in (Collapsible.app_name c) ["metallb"; "vouch"]
            || str_contains ","%char (value (input ev)));
    cbn [negb]; unfold cfg_assign; rewrite Hup; reflexivity.
Qed.

(** A valid edit of a password input whose owner is list-coerced, or whose
    text has a comma: the sanitized list is assigned under [init.values]
    before the text is cached. *)
Lemma sensitive_list_edit_run (c : Collapsible.t) ev st vals cache :
  is_valid (validation_result ev) = true ->
  password (input ev) = true ->
  str_in (Collapsible.app_name c) ["metallb"; "vouch"]
  || str_contains ","%char (value (input ev)) = true ->
  get_path (cfg st) ["apps"; Collapsible.app_name c; "init"; "values"]
  = Ok (VDict vals) ->
  get_path (sensitive_values st) [Collapsible.app_name c] = Ok (VDict cache) ->
  exists doc seen,
    Collapsible.input_validation c ev st
    = (Ok tt,
       {| cfg := doc; bell_on_error := bell_on_error st;
          sensitive_values := seen |},
       [Log ("saving special value for " ++ name (input ev)
             ++ " to screen cache")]) /\
    get_path doc ["apps"; Collapsible.app_name c; "init"; "values";
                  name (input ev)]
    = Ok (VList (map VStr (Util.create_sanitized_list (value (input ev))))) /\
    get_path seen [Collapsible.app_name c; name (input ev)]
    = Ok (VStr (value (input ev))).
Proof.
  intros Hvalid Hpw Hlist Hget Hcache.
  destruct (update_path_assign_read _ _ _ (name (input ev))
              (VList (map VStr (Util.create_sanitized_list (value (input ev)))))
              Hget) as (doc & Hup & Hread).
  destruct (update_path_assign_read _ _ _ (name (input ev))
              (VStr (value (input ev))) Hcache) as (seen & Hup' & Hread').
  exists doc, seen. split; [|split; [exact Hread | exact Hread']].
  unfold Collapsible.input_validation, bind, cfg_lookup.
  rewrite Hvalid, Hget, Hpw, Hlist.
  cbn [negb]. unfold cfg_assign. rewrite Hup.
  unfold emit, sensitive_assign. cbn [cfg sensitive_values bell_on_error].
  rewrite Hup'. reflexivity.
Qed.

(** A valid edit of a password input otherwise: only the cache changes. *)
Lemma sensitive_scalar_edit_run (c : Collapsible.t) ev st vals cache :
  is_valid (validation_result ev) = true ->
  password (input ev) = true ->
  str_in (Collapsible.app_name c) ["metallb"; "vouch"]
  || str_contains ","%char (value (input ev)) = false ->
  get_path (cfg st) ["apps"; Collapsible.app_name c; "init"; "values"]
  = Ok (VDict vals) ->
  get_path (sensitive_values st) [Collapsible.app_name c] = Ok (VDict cache) ->
  exists seen,
    Collapsible.input_validation c ev st
    = (Ok tt,
       {| cfg := cfg st; bell_on_error := bell_on_error st;
          sensitive_values := seen |},
       [Log ("saving special value for " ++ name (input ev)
             ++ " to screen cache")]) /\
    get_path seen [Collapsible.app_name c; name (input ev)]
    = Ok (VStr (value (input ev))).
Proof.
  intros Hvalid Hpw Hlist Hget Hcache.
  destruct (update_path_assign_read _ _ _ (name (input ev))
              (VStr (value (input ev))) Hcache) as (seen & Hup' & Hread').
  exists seen. split; [|exact Hread'].
  unfold Collapsible.input_validation, bind, cfg_lookup.
  rewrite Hvalid, Hget, Hpw, Hlist.
  cbn [negb]. unfold ret, emit, sensitive_assign.
  cbn [cfg sensitive_values bell_on_error].
  rewrite Hup'. reflexivity.
Qed.

(** C1 (the handler departs from it).  A valid edit of a password input is
    meant to reach only [sensitive_values].  The owner "metallb" and a cached
    text "hunter2", and the owner "nextcloud" and a text with a comma, show
    the handler of either class assigning the sanitized list under
    [cfg.apps.<owner>.init.values.<name>] as well. *)
Theorem sensitive_list_edit_reaches_document :
  let leaked (run : result unit * tui * list effect) owner key list :=
    fst (fst run) = Ok tt /\
    get_path (cfg (snd (fst run))) ["apps"; owner; "init"; "values"; key]
    = Ok (VList list) in
  leaked (Collapsible.input_validation
            (sample_collapsible "metallb" [] [])
            (sample_edit "metallb" "bgp_password" true "hunter2" [])
            (sample_tui "metallb" []))
         "metallb" "bgp_password" [VStr "hunter2"] /\
  leaked (Flat.input_validation
            (sample_flat "metallb" [] [])
            (sample_edit "metallb" "bgp_password" true "hunter2" [])
            (sample_tui "metallb" []))
         "metallb" "bgp_password" [VStr "hunter2"] /\
  leaked (Collapsible.input_validation
            (sample_collapsible "nextcloud" [] [])
            (sample_edit "nextcloud" "admin_password" true "pass,word" [])
            (sample_tui "nextcloud" []))
         "nextcloud" "admin_password" [VStr "pass"; VStr "word"] /\
  leaked (Flat.input_validation
            (sample_flat "nextcloud" [] [])
            (sample_edit "nextcloud" "admin_password" true "pass,word" [])
            (sample_tui "nextcloud" []))
         "nextcloud" "admin_password" [VStr "pass"; VStr "word"].
Proof.
  cbv zeta. repeat split; vm_compute; reflexivity.
Qed.

(** C2.  A valid edit of an input that is no password input, for an owner
    in ["metallb", "vouch"] or with a comma in the text: either class stores,
    under [cfg.apps.<owner>.init.values.<name>], the list of the text's
    comma-separated pieces, each trimmed, the empty ones dropped, and writes
    the document. *)
Theorem list_coerced_edit_stores_sanitized_list
        (c : Collapsible.t) (f : Flat.t) ev st vals :
  Flat.app_name f = Collapsible.app_name c ->
  is_valid (validation_result ev) = true ->
  password (input ev) = false ->
  str_in (Collapsible.app_name c) ["metallb"; "vouch"] = true
  \/ str_contains ","%char (value (input ev)) = true ->
  get_path (cfg st) ["apps"; Collapsible.app_name c; "init"; "values"]
  = Ok (VDict vals) ->
  exists doc,
    let st' := {| cfg := doc; bell_on_error := bell_on_error st;
                  sensitive_values := sensitive_values st |} in
    Collapsible.input_validation c ev st = (Ok tt, st', [WriteYaml doc]) /\
    Flat.input_validation f ev st = (Ok tt, st', [WriteYaml doc]) /\
    get_path doc ["apps"; Collapsible.app_name c; "init"; "values";
                  name (input ev)]
    = Ok (VList (map VStr
                   (filter (fun piece => negb (String.eqb piece ""))
                      (map Util.strip
                         (Util.split_commas (value (input ev))))))).
Proof.
  intros Happ Hvalid Hpw Hlist Hget.
  destruct (plain_edit_run c ev st vals Hvalid Hpw Hget) as (doc & Hrun & Hread).
  exists doc. cbv zeta.
  rewrite (input_validation_agree c f ev st Happ), Hrun.
  split; [reflexivity | split; [reflexivity|]].
  rewrite Hread. unfold plain_stored.
  replace (str_in (Collapsible.app_name c) ["metallb"; "vouch"]
           || str_contains ","%char (value (input ev))) with true.
  - reflexivity.
  - symmetry. apply orb_true_iff. exact Hlist.
Qed.

(** The owner "metallb" and the text "1.2.3.4,5.6.7.8". *)
Lemma list_coerced_edit_metallb :
  exists doc,
    let st' := {| cfg := doc; bell_on_error := true;
                  sensitive_values := VDict [("metallb", VDict [])] |} in
    Collapsible.input_validation
      (sample_collapsible "metallb" [] [])
      (sample_edit "metallb" "address_pool" false "1.2.3.4,5.6.7.8" [])
      (sample_tui "metallb" [])
    = (Ok tt, st', [WriteYaml doc]) /\
    Flat.input_validation
      (sample_flat "metallb" [] [])
      (sample_edit "metallb" "address_pool" false "1.2.3.4,5.6.7.8" [])
      (sample_tui "metallb" [])
    = (Ok tt, st', [WriteYaml doc]) /\
    get_path doc ["apps"; "metallb"; "init"; "values"; "address_pool"]
    = Ok (VList [VStr "1.2.3.4"; VStr "5.6.7.8"]).
Proof.
  apply (list_coerced_edit_stores_sanitized_list
           (sample_collapsible "metallb" [] [])
           (sample_flat "metallb" [] [])
           (sample_edit "metallb" "address_pool" false "1.2.3.4,5.6.7.8" [])
           (sample_tui "metallb" []) []).
  - reflexivity.
  - reflexivity.
  - reflexivity.
  - left. reflexivity.
  - reflexivity.
Defined.

(** An edit the event reports as invalid: nothing is assigned and nothing
    is written; the bell rings if [bell_on_error] is set, and one warning
    carries the failure descriptions, one per line. *)
Lemma invalid_edit_run (c : Collapsible.t) ev st :
  is_valid (validation_result ev) = false ->
  Collapsible.input_validation c ev st
  = (Ok tt, st,
     ((if bell_on_error st then [Bell] else [])
      ++ [Notify (String.concat newline
                    (failure_descriptions (validation_result ev)))
                 "warning" validation_error_title])%list).
Proof.
  intros Hinvalid.
  unfold Collapsible.input_validation, bind, get_bell_on_error.
  rewrite Hinvalid.
  destruct (bell_on_error st); reflexivity.
Qed.

Lemma Length_passes_short minimum v :
  (String.length v < minimum)%nat -> Length_passes minimum v = false.
Proof.
  intros Hshort. unfold Length_passes. apply Nat.leb_gt. exact Hshort.
Qed.

(** C3.  An edit whose text is shorter than two characters, judged by the
    row's validator [Length(minimum=2)]: in either class the handler leaves
    the document and the cache as they are, asks for no write, emits one
    warning with all failure descriptions joined by line breaks, and rings
    the bell exactly when [bell_on_error] is set. *)
Theorem short_edit_mutates_nothing
        (c : Collapsible.t) (f : Flat.t) ev st :
  Flat.app_name f = Collapsible.app_name c ->
  is_valid (validation_result ev) = Length_passes 2 (value (input ev)) ->
  (String.length (value (input ev)) < 2)%nat ->
  let warning :=
    Notify (String.concat newline
              (failure_descriptions (validation_result ev)))
           "warning" validation_error_title in
  let out := if bell_on_error st then [Bell; warning] else [warning] in
  Collapsible.input_validation c ev st = (Ok tt, st, out) /\
  Flat.input_validation f ev st = (Ok tt, st, out).
Proof.
  intros Happ Hverdict Hshort. cbv zeta.
  rewrite (Length_passes_short _ _ Hshort) in Hverdict.
  rewrite (input_validation_agree c f ev st Happ).
  rewrite (invalid_edit_run c ev st Hverdict).
  destruct (bell_on_error st); split; reflexivity.
Qed.

(** The one-character text "a", with the bell switched on. *)
Lemma short_edit_a :
  let ev := sample_edit "nextcloud" "admin_user" false "a"
                        ["too short"] in
  let st := sample_tui "nextcloud" [("admin_user", VStr "admin")] in
  let out := [Bell;
              Notify "too short" "warning"
                     validation_error_title] in
  Collapsible.input_validation (sample_collapsible "nextcloud" [] []) ev st
  = (Ok tt, st, out) /\
  Flat.input_validation (sample_flat "nextcloud" [] []) ev st
  = (Ok tt, st, out).
Proof.
  apply (short_edit_mutates_nothing
           (sample_collapsible "nextcloud" [] [])
           (sample_flat "nextcloud" [] [])
           (sample_edit "nextcloud" "admin_user" false "a"
                        ["too short"])
           (sample_tui "nextcloud" [("admin_user", VStr "admin")])).
  - reflexivity.
  - reflexivity.
  - simpl. lia.
Defined.

(** C4.  A valid edit of an input that is no password input, for an owner
    outside ["metallb", "vouch"] and a text without comma: either class
    stores the text itself under [cfg.apps.<owner>.init.values.<name>] and
    then asks once for the document, as it is with that text, to be
    written. *)
Theorem scalar_edit_stores_text_and_writes_once
        (c : Collapsible.t) (f : Flat.t) ev st vals :
  Flat.app_name f = Collapsible.app_name c ->
  is_valid (validation_result ev) = true ->
  password (input ev) = false ->
  str_in (Collapsible.app_name c) ["metallb"; "vouch"] = false ->
  str_contains ","%char (value (input ev)) = false ->
  get_path (cfg st) ["apps"; Collapsible.app_name c; "init"; "values"]
  = Ok (VDict vals) ->
  exists doc,
    let st' := {| cfg := doc; bell_on_error := bell_on_error st;
                  sensitive_values := sensitive_values st |} in
    Collapsible.input_validation c ev st = (Ok tt, st', [WriteYaml doc]) /\
    Flat.input_validation f ev st = (Ok tt, st', [WriteYaml doc]) /\
    get_path doc ["apps"; Collapsible.app_name c; "init"; "values";
                  name (input ev)]
    = Ok (VStr (value (input ev))).
Proof.
  intros Happ Hvalid Hpw Howner Hcomma Hget.
  destruct (plain_edit_run c ev st vals Hvalid Hpw Hget) as (doc & Hrun & Hread).
  exists doc. cbv zeta.
  rewrite (input_validation_agree c f ev st Happ), Hrun.
  split; [reflexivity | split; [reflexivity|]].
  rewrite Hread. unfold plain_stored. rewrite Howner, Hcomma. reflexivity.
Qed.

(** The owner "nextcloud" and the text "hello". *)
Lemma scalar_edit_hello :
  exists doc,
    let st' := {| cfg := doc; bell_on_error := true;
                  sensitive_values := VDict [("nextcloud", VDict [])] |} in
    Collapsible.input_validation
      (sample_collapsible "nextcloud" [] [])
      (sample_edit "nextcloud" "admin_user" false "hello" [])
      (sample_tui "nextcloud" [])
    = (Ok tt, st', [WriteYaml doc]) /\
    Flat.input_validation
      (sample_flat "nextcloud" [] [])
      (sample_edit "nextcloud" "admin_user" false "hello" [])
      (sample_tui "nextcloud" [])
    = (Ok tt, st', [WriteYaml doc]) /\
    get_path doc ["apps"; "nextcloud"; "init"; "values"; "admin_user"]
    = Ok (VStr "hello").
Proof.
  apply (scalar_edit_stores_text_and_writes_once
           (sample_collapsible "nextcloud" [] [])
           (sample_flat "nextcloud" [] [])
           (sample_edit "nextcloud" "admin_user" false "hello" [])
           (sample_tui "nextcloud" []) []); reflexivity.
Defined.

(** C7.  A switch change: either class assigns the boolean to
    [cfg.apps.<owner>.init.<switch name>], asks for the document to be
    written, and then emits one notice exactly when the switch is named
    "create_minio_tenant" and the new value is true. *)
Theorem switch_change_writes_and_notifies
        (c : Collapsible.t) (f : Flat.t) ev st init :
  Flat.app_name f = Collapsible.app_name c ->
  get_path (cfg st) ["apps"; Collapsible.app_name c; "init"] = Ok (VDict init) ->
  exists doc notices,
    let st' := {| cfg := doc; bell_on_error := bell_on_error st;
                  sensitive_values := sensitive_values st |} in
    Collapsible.update_base_yaml_for_switch c ev st
    = (Ok tt, st', WriteYaml doc :: notices) /\
    Flat.update_base_yaml_for_switch f ev st
    = (Ok tt, st', WriteYaml doc :: notices) /\
    get_path doc ["apps"; Collapsible.app_name c; "init"; switch_name ev]
    = Ok (VBool (switch_value ev)) /\
    (switch_name ev = "create_minio_tenant" /\ switch_value ev = true ->
     notices = [Notify recursion_notice "information" ""]) /\
    (~ (switch_name ev = "create_minio_tenant" /\ switch_value ev = true) ->
     notices = []).
Proof.
  intros Happ Hget.
  destruct (update_path_assign_read _ _ _ (switch_name ev)
              (VBool (switch_value ev)) Hget) as (doc & Hup & Hread).
  exists doc,
    (if switch_value ev && String.eqb (switch_name ev) "create_minio_tenant"
     then [Notify recursion_notice "information" ""] else []).
  cbv zeta.
  rewrite (update_base_yaml_for_switch_agree c f ev st Happ).
  assert (Hrun :
    Collapsible.update_base_yaml_for_switch c ev st
    = (Ok tt,
       {| cfg := doc; bell_on_error := bell_on_error st;
          sensitive_values := sensitive_values st |},
       WriteYaml doc ::
       (if switch_value ev
           && String.eqb (switch_name ev) "create_minio_tenant"
        then [Notify recursion_notice "information" ""] else []))).
  { unfold Collapsible.update_base_yaml_for_switch, bind, cfg_assign.
    rewrite Hup. unfold write_yaml. cbn [cfg].
    destruct (switch_value ev
              && String.eqb (switch_name ev) "create_minio_tenant");
      reflexivity. }
  rewrite Hrun.
  split; [reflexivity | split; [reflexivity | split; [exact Hread|]]].
  split.
  - intros [-> ->]. reflexivity.
  - intros Hnot.
    destruct (switch_value ev) eqn:Hv; [|reflexivity].
    destruct (String.eqb_spec (switch_name ev) "create_minio_tenant") as [Hn|Hn];
      [|reflexivity].
    exfalso. apply Hnot. split; [exact Hn | reflexivity].
Qed.

(** The switch "create_minio_tenant" of "nextcloud", turned on. *)
Lemma switch_change_minio_on :
  exists doc notices,
    let st' := {| cfg := doc; bell_on_error := true;
                  sensitive_values := VDict [("nextcloud", VDict [])] |} in
    Collapsible.update_base_yaml_for_switch
      (sample_collapsible "nextcloud" [] [])
      (mkSwitchChanged "create_minio_tenant" true)
      (sample_tui "nextcloud" [])
    = (Ok tt, st', WriteYaml doc :: notices) /\
    Flat.update_base_yaml_for_switch
      (sample_flat "nextcloud" [] [])
      (mkSwitchChanged "create_minio_tenant" true)
      (sample_tui "nextcloud" [])
    = (Ok tt, st', WriteYaml doc :: notices) /\
    get_path doc ["apps"; "nextcloud"; "init"; "create_minio_tenant"]
    = Ok (VBool true) /\
    ("create_minio_tenant" = "create_minio_tenant" /\ true = true ->
     notices = [Notify recursion_notice "information" ""]) /\
    (~ ("create_minio_tenant" = "create_minio_tenant" /\ true = true) ->
     notices = []).
Proof.
  apply (switch_change_writes_and_notifies
           (sample_collapsible "nextcloud" [] [])
           (sample_flat "nextcloud" [] [])
           (mkSwitchChanged "create_minio_tenant" true)
           (sample_tui "nextcloud" [])
           [("enabled", VBool true); ("values", VDict [])]); reflexivity.
Defined.

(** ** Row construction *)

Lemma all_strs_map ss : all_strs (map VStr ss) = Some ss.
Proof.
  induction ss as [|s ss IH]; simpl; [reflexivity | now rewrite IH].
Qed.

Lemma str_join_strs sep ss :
  str_join sep (map VStr ss) = Ok (String.concat sep ss).
Proof.
  unfold str_join. now rewrite all_strs_map.
Qed.

(** On a value that counts as true, both classes build the same row, or
    fail alike. *)
Lemma generate_input_row_agree `{Collaborators}
      (c : Collapsible.t) (f : Flat.t) key value :
  Flat.app_name f = Collapsible.app_name c ->
  Flat.tooltips f = Collapsible.tooltips c ->
  truthy value = true ->
  Flat.generate_input_row f key value
  = Collapsible.generate_input_row c key value.
Proof.
  intros Happ Htips Htrue.
  unfold Flat.generate_input_row, Collapsible.generate_input_row.
  rewrite Happ, Htips, Htrue.
  destruct value as [| b | z | s | l | d]; try reflexivity.
  - destruct l as [|x l']; [discriminate|].
    destruct x; try reflexivity.
    + destruct (str_join ", " (VStr s :: l')); reflexivity.
    + destruct (str_join ", " l); reflexivity.
  - destruct (extract_secret d); reflexivity.
Qed.

(** C5 as stated fails: a sequence of numbers, or one whose first item is a
    string and a later one is not, gives no field at all. *)
Lemma sequence_row_counterexample :
  Collapsible.generate_input_row (H := sample_collaborators)
    (sample_collapsible "nextcloud" [] []) "ports"
    (VList [VInt 80; VInt 443])
  = Raise (UnboundLocalError "sequence_value") /\
  Flat.generate_input_row (H := sample_collaborators)
    (sample_flat "nextcloud" [] []) "ports"
    (VList [VInt 80; VInt 443])
  = Raise (UnboundLocalError "sequence_value") /\
  Collapsible.generate_input_row (H := sample_collaborators)
    (sample_collapsible "nextcloud" [] []) "hosts"
    (VList [VStr "example.com"; VInt 8080])
  = Raise TypeError /\
  Flat.generate_input_row (H := sample_collaborators)
    (sample_flat "nextcloud" [] []) "hosts"
    (VList [VStr "example.com"; VInt 8080])
  = Raise TypeError.
Proof.
  repeat split; reflexivity.
Qed.

(** C5, amended.  For a non-empty sequence of strings, and for a sequence
    whose first item is a sequence of strings, either class builds a row
    whose input shows the strings (of the first item, in the second case)
    joined by ", "; that joined text is what is validated, and the input is
    no password input. *)
Theorem sequence_row_is_joined `{Collaborators}
        (c : Collapsible.t) (f : Flat.t) key l ss :
  Flat.app_name f = Collapsible.app_name c ->
  Flat.tooltips f = Collapsible.tooltips c ->
  (ss <> [] /\ l = map VStr ss)
  \/ (exists rest, l = VList (map VStr ss) :: rest) ->
  exists row,
    Collapsible.generate_input_row c key (VList l) = Ok row /\
    Flat.generate_input_row f key (VList l) = Ok row /\
    password (row_input row) = false /\
    value (row_input row) = Some (VStr (String.concat ", " ss)) /\
    row_validated row = VStr (String.concat ", " ss).
Proof.
  intros Happ Htips Hshape.
  assert (Htrue : truthy (VList l) = true).
  { destruct Hshape as [[Hne ->] | [rest ->]]; [|reflexivity].
    destruct ss; [contradiction | reflexivity]. }
  rewrite (generate_input_row_agree c f key (VList l) Happ Htips Htrue).
  assert (Hjoin :
    match l with
    | VStr _ :: _ => str_join ", " l
    | VList inner :: _ => str_join ", " inner
    | _ :: _ => Raise (UnboundLocalError "sequence_value")
    | [] => Raise IndexError
    end = Ok (String.concat ", " ss)).
  { destruct Hshape as [[Hne ->] | [rest ->]].
    - destruct ss as [|s ss']; [contradiction|].
      change (VStr s :: map VStr ss') with (map VStr (s :: ss')).
      cbn [map]. apply (str_join_strs ", " (s :: ss')).
    - apply str_join_strs. }
  unfold Collapsible.generate_input_row.
  rewrite Htrue, Hjoin. cbn [rbind].
  cbn [keys_password with_value with_password ik_password].
  destruct (tooltip_truthy (dict_get (Collapsible.tooltips c) key));
    destruct (String.eqb key "s3_provider");
    cbn [negb rbind];
    eexists; (split; [reflexivity|]); repeat split.
Qed.

(** The sequences ["1.2.3.4", "5.6.7.8"] and [["a", "b"], ["c"]]. *)
Lemma sequence_row_addresses :
  exists row,
    Collapsible.generate_input_row (H := sample_collaborators)
      (sample_collapsible "metallb" [] []) "address_pool"
      (VList [VStr "1.2.3.4"; VStr "5.6.7.8"]) = Ok row /\
    Flat.generate_input_row (H := sample_collaborators)
      (sample_flat "metallb" [] []) "address_pool"
      (VList [VStr "1.2.3.4"; VStr "5.6.7.8"]) = Ok row /\
    password (row_input row) = false /\
    value (row_input row) = Some (VStr "1.2.3.4, 5.6.7.8") /\
    row_validated row = VStr "1.2.3.4, 5.6.7.8".
Proof.
  apply (sequence_row_is_joined (H := sample_collaborators)
           (sample_collapsible "metallb" [] [])
           (sample_flat "metallb" [] [])
           "address_pool" [VStr "1.2.3.4"; VStr "5.6.7.8"]
           ["1.2.3.4"; "5.6.7.8"]).
  - reflexivity.
  - reflexivity.
  - left. split; [discriminate | reflexivity].
Defined.

(** C6.  A structured secret reference is a mapping that says where the
    secret is fetched from, so it is not empty.  For such a mapping that
    [extract_secret] resolves, either class builds a row whose input is a
    password input and shows the resolved text. *)
Theorem secret_row_is_sensitive `{Collaborators}
        (c : Collapsible.t) (f : Flat.t) key d secret :
  Flat.app_name f = Collapsible.app_name c ->
  Flat.tooltips f = Collapsible.tooltips c ->
  d <> [] ->
  extract_secret d = Ok secret ->
  exists row,
    Collapsible.generate_input_row c key (VDict d) = Ok row /\
    Flat.generate_input_row f key (VDict d) = Ok row /\
    password (row_input row) = true /\
    value (row_input row) = Some (VStr secret) /\
    row_validated row = VStr secret.
Proof.
  intros Happ Htips Hne Hsecret.
  assert (Htrue : truthy (VDict d) = true).
  { destruct d; [contradiction | reflexivity]. }
  rewrite (generate_input_row_agree c f key (VDict d) Happ Htips Htrue).
  unfold Collapsible.generate_input_row.
  rewrite Htrue, Hsecret. cbn [rbind].
  cbn [keys_password with_value with_password ik_password].
  destruct (tooltip_truthy (dict_get (Collapsible.tooltips c) key));
    cbn [negb rbind];
    eexists; (split; [reflexivity|]); repeat split.
Qed.

(** The reference [{value_from: {env: NEXTCLOUD_ADMIN_PASSWORD}}]. *)
Lemma secret_row_admin_password :
  exists row,
    Collapsible.generate_input_row (H := sample_collaborators)
      (sample_collapsible "nextcloud" [] []) "admin_password"
      (VDict [("value_from",
               VDict [("env", VStr "NEXTCLOUD_ADMIN_PASSWORD")])]) = Ok row /\
    Flat.generate_input_row (H := sample_collaborators)
      (sample_flat "nextcloud" [] []) "admin_password"
      (VDict [("value_from",
               VDict [("env", VStr "NEXTCLOUD_ADMIN_PASSWORD")])]) = Ok row /\
    password (row_input row) = true /\
    value (row_input row) = Some (VStr "hunter2") /\
    row_validated row = VStr "hunter2".
Proof.
  apply (secret_row_is_sensitive (H := sample_collaborators)
           (sample_collapsible "nextcloud" [] [])
           (sample_flat "nextcloud" [] [])
           "admin_password"
           [("value_from", VDict [("env", VStr "NEXTCLOUD_ADMIN_PASSWORD")])]
           "hunter2").
  - reflexivity.
  - reflexivity.
  - discriminate.
  - reflexivity.
Defined.

(** C8 as stated fails: an empty tooltip is in the mapping, and the help
    text is made up from the label all the same. *)
Lemma help_text_counterexample :
  exists row,
    Flat.generate_input_row (H := sample_collaborators)
      (sample_flat "nextcloud" [] [("admin_user", "")])
      "admin_user" (VStr "admin") = Ok row /\
    Collapsible.generate_input_row (H := sample_collaborators)
      (sample_collapsible "nextcloud" [] [("admin_user", "")])
      "admin_user" (VStr "admin") = Ok row /\
    tooltip (row_input row) = "Please enter a admin user." /\
    help_text_when_present (H := sample_collaborators)
      "nextcloud" [("admin_user", "")] "admin_user"
      (password (row_input row)) = "" /\
    tooltip (row_input row)
    <> help_text_when_present (H := sample_collaborators)
         "nextcloud" [("admin_user", "")] "admin_user"
         (password (row_input row)).
Proof.
  eexists. split; [reflexivity|].
  split; [reflexivity|]. split; [reflexivity|]. split; [reflexivity|].
  discriminate.
Qed.

(** The choice of the help text once the dictionary [input_keys] holds a
    ["password"] entry. *)
Ltac case_help_text tips key owner :=
  destruct (dict_get tips key) as [explicit|];
  [destruct (String.eqb explicit "")|];
  destruct (String.eqb key "s3_provider");
  destruct (String.eqb owner "metallb").

(** What is left to decide in [Hrow] is what [Input] and [validate] make
    of a value that is no string. *)
Ltac framework_cases Hrow :=
  cbn in Hrow;
  repeat (match type of Hrow with
          | context [Input_validate ?v] => is_var v; destruct v
          | context [Input_takes ?v] => is_var v; destruct v
          | context [match ?v with VNone => _ | _ => _ end] => destruct v
          | context [if ?b then _ else _] => destruct b
          end;
          cbn in Hrow).

Ltac close_row Hrow :=
  framework_cases Hrow;
  first [discriminate Hrow | injection Hrow as <-; reflexivity].

(** C8, amended.  Whenever either class builds a row, its help text is:
    the tooltip of [tooltips[key]] when there is one and it is not empty;
    else, for a password input, the message naming the environment variable
    [OWNER_KEY] in upper case; else, for the key "s3_provider", the fixed
    message; else the phrase made from the label, with a full stop; and
    for the owner "metallb" the DNS warning is appended to the text
    chosen. *)
Theorem help_text_resolution `{Collaborators}
        (c : Collapsible.t) (f : Flat.t) key value row :
  Flat.app_name f = Collapsible.app_name c ->
  Flat.tooltips f = Collapsible.tooltips c ->
  Collapsible.generate_input_row c key value = Ok row
  \/ Flat.generate_input_row f key value = Ok row ->
  tooltip (row_input row)
  = help_text (Collapsible.app_name c) (Collapsible.tooltips c) key
              (password (row_input row)).
Proof.
  intros Happ Htips Hrow.
  unfold help_text, with_dns_warning, generated_help, tooltip_truthy.
  destruct Hrow as [Hrow | Hrow].
  - unfold Collapsible.generate_input_row, tooltip_truthy, tooltip_text in Hrow.
    destruct (truthy value).
    + destruct value as [| b | z | s | l | d].
      * case_help_text (Collapsible.tooltips c) key (Collapsible.app_name c);
          close_row Hrow.
      * case_help_text (Collapsible.tooltips c) key (Collapsible.app_name c);
          close_row Hrow.
      * case_help_text (Collapsible.tooltips c) key (Collapsible.app_name c);
          close_row Hrow.
      * case_help_text (Collapsible.tooltips c) key (Collapsible.app_name c);
          close_row Hrow.
      * destruct (match l with
                  | VStr _ :: _ => str_join ", " l
                  | VList inner :: _ => str_join ", " inner
                  | _ :: _ => Raise (UnboundLocalError "sequence_value")
                  | [] => Raise IndexError
                  end) as [joined|e]; [|discriminate Hrow].
        case_help_text (Collapsible.tooltips c) key (Collapsible.app_name c);
          close_row Hrow.
      * destruct (extract_secret d) as [secret|e]; [|discriminate Hrow].
        case_help_text (Collapsible.tooltips c) key (Collapsible.app_name c);
          close_row Hrow.
    + case_help_text (Collapsible.tooltips c) key (Collapsible.app_name c);
        close_row Hrow.
  - unfold Flat.generate_input_row, tooltip_truthy, tooltip_text in Hrow.
    rewrite Happ, Htips in Hrow.
    destruct (truthy value).
    + destruct value as [| b | z | s | l | d].
      * case_help_text (Collapsible.tooltips c) key (Collapsible.app_name c);
          close_row Hrow.
      * case_help_text (Collapsible.tooltips c) key (Collapsible.app_name c);
          close_row Hrow.
      * case_help_text (Collapsible.tooltips c) key (Collapsible.app_name c);
          close_row Hrow.
      * case_help_text (Collapsible.tooltips c) key (Collapsible.app_name c);
          close_row Hrow.
      * destruct (match l with
                  | VStr _ :: _ => str_join ", " l
                  | VList inner :: _ => str_join ", " inner
                  | _ :: _ => Raise (UnboundLocalError "sequence_value")
                  | [] => Raise IndexError
                  end) as [joined|e]; [|discriminate Hrow].
        case_help_text (Collapsible.tooltips c) key (Collapsible.app_name c);
          close_row Hrow.
      * destruct (extract_secret d) as [secret|e]; [|discriminate Hrow].
        case_help_text (Collapsible.tooltips c) key (Collapsible.app_name c);
          close_row Hrow.
    + case_help_text (Collapsible.tooltips c) key (Collapsible.app_name c);
        close_row Hrow.
Qed.

(** The password input of "nextcloud": no tooltip is given, and the help
    text names NEXTCLOUD_ADMIN_PASSWORD. *)
Lemma help_text_admin_password :
  tooltip (row_input sample_secret_row)
  = help_text (H := sample_collaborators) "nextcloud" [] "admin_password" true.
Proof.
  apply (help_text_resolution (H := sample_collaborators)
           (sample_collapsible "nextcloud" [] [])
           (sample_flat "nextcloud" [] [])
           "admin_password"
           (VDict [("value_from",
                    VDict [("env", VStr "NEXTCLOUD_ADMIN_PASSWORD")])])
           sample_secret_row).
  - reflexivity.
  - reflexivity.
  - left. reflexivity.
Defined.

(** C10 as stated fails: for an absent value ([None]) and for [False],
    under a key without tooltip, the flat class does not succeed either: it
    gets past the lookup of ["password"] and then raises [TypeError], as the
    value has no length to validate. *)
Lemma absent_value_row_counterexample :
  truthy VNone = false /\
  dict_get (Flat.tooltips (sample_flat "nextcloud" [] [])) "admin_user"
  = None /\
  Collapsible.generate_input_row (H := sample_collaborators)
    (sample_collapsible "nextcloud" [] []) "admin_user" VNone
  = Raise (KeyError "password") /\
  Flat.generate_input_row (H := sample_collaborators)
    (sample_flat "nextcloud" [] []) "admin_user" VNone
  = Raise TypeError /\
  Flat.generate_input_row (H := sample_collaborators)
    (sample_flat "nextcloud" [] []) "admin_user" (VBool false)
  = Raise TypeError.
Proof.
  repeat split; reflexivity.
Qed.

(** C10, amended.  For a value that counts as false (absent, the empty
    string, [False]) under a key without entry in [tooltips], the
    collapsible class reads [input_keys['password']] before anything has
    set it and raises the lookup error; the flat class, which starts the
    dictionary with ["password": False], never raises that error, and for
    the empty string it builds a row whose input is no password input. *)
Theorem empty_value_row_only_in_flat `{Collaborators}
        (c : Collapsible.t) (f : Flat.t) key raw :
  Flat.app_name f = Collapsible.app_name c ->
  Flat.tooltips f = Collapsible.tooltips c ->
  truthy raw = false ->
  dict_get (Collapsible.tooltips c) key = None ->
  Collapsible.generate_input_row c key raw = Raise (KeyError "password") /\
  Flat.generate_input_row f key raw <> Raise (KeyError "password") /\
  (raw = VStr "" ->
   exists row,
     Flat.generate_input_row f key raw = Ok row /\
     password (row_input row) = false /\
     value (row_input row) = Some raw).
Proof.
  intros Happ Htips Hfalse Hnone. split; [|split].
  - unfold Collapsible.generate_input_row.
    rewrite Hfalse, Hnone. reflexivity.
  - unfold Flat.generate_input_row.
    rewrite Htips, Hfalse, Hnone.
    destruct raw as [| b | z | s | l | d]; cbn;
      try destruct b; try destruct (Z.eqb z 0);
      destruct (String.eqb key "s3_provider"); cbn; discriminate.
  - intros ->. unfold Flat.generate_input_row.
    rewrite Htips, Hnone. cbn.
    destruct (String.eqb key "s3_provider");
      eexists; (split; [reflexivity|]); split; reflexivity.
Qed.

(** The key "admin_user" with the empty string. *)
Lemma empty_value_row_admin_user :
  Collapsible.generate_input_row (H := sample_collaborators)
    (sample_collapsible "nextcloud" [] []) "admin_user" (VStr "")
  = Raise (KeyError "password") /\
  Flat.generate_input_row (H := sample_collaborators)
    (sample_flat "nextcloud" [] []) "admin_user" (VStr "")
  <> Raise (KeyError "password") /\
  (VStr "" = VStr "" ->
   exists row,
     Flat.generate_input_row (H := sample_collaborators)
       (sample_flat "nextcloud" [] []) "admin_user" (VStr "") = Ok row /\
     password (row_input row) = false /\
     value (row_input row) = Some (VStr "")).
Proof.
  apply (empty_value_row_only_in_flat (H := sample_collaborators)
           (sample_collapsible "nextcloud" [] [])
           (sample_flat "nextcloud" [] []) "admin_user" (VStr ""));
    reflexivity.
Defined.

(** ** The two classes side by side *)

(** C9 as stated fails: the flat class leaves out the key
    "trusted_key_servers", which the collapsible class renders; and under a
    key without tooltip whose value is the empty string, the flat class
    builds a row where the collapsible class raises. *)
Lemma classes_counterexample :
  (exists rows_c rows_f,
     Collapsible.on_mount (H := sample_collaborators)
       (sample_collapsible "vouch"
          [("trusted_key_servers", VStr "keys.openpgp.org");
           ("admin_user", VStr "admin")] []) = Ok rows_c /\
     Flat.on_mount (H := sample_collaborators)
       (sample_flat "vouch"
          [("trusted_key_servers", VStr "keys.openpgp.org");
           ("admin_user", VStr "admin")] []) = Ok rows_f /\
     length rows_c = 2 /\ length rows_f = 1) /\
  (exists rows_f,
     Collapsible.on_mount (H := sample_collaborators)
       (sample_collapsible "vouch" [("admin_user", VStr "")] [])
     = Raise (KeyError "password") /\
     Flat.on_mount (H := sample_collaborators)
       (sample_flat "vouch" [("admin_user", VStr "")] []) = Ok rows_f /\
     length rows_f = 1).
Proof.
  split.
  - eexists. eexists. repeat split; reflexivity.
  - eexists. repeat split; reflexivity.
Qed.

(** Over keys other than "trusted_key_servers" with values that count as
    true, both loops mount the same rows. *)
Lemma mount_rows_agree `{Collaborators}
      (c : Collapsible.t) (f : Flat.t) items :
  Flat.app_name f = Collapsible.app_name c ->
  Flat.tooltips f = Collapsible.tooltips c ->
  Forall (fun item => fst item <> "trusted_key_servers"
                      /\ truthy (snd item) = true) items ->
  Flat.mount_rows f items = Collapsible.mount_rows c items.
Proof.
  intros Happ Htips Hitems.
  induction Hitems as [|[key raw] rest [Hkey Htrue] _ IH]; [reflexivity|].
  cbn [Flat.mount_rows Collapsible.mount_rows fst snd] in *.
  destruct (String.eqb_spec key "trusted_key_servers") as [Heq|_];
    [contradiction|].
  cbn [negb]. unfold Flat.generate_row, Collapsible.generate_row.
  rewrite (generate_input_row_agree c f key raw Happ Htips Htrue), IH.
  reflexivity.
Qed.

(** C9, amended.  For the same owner, inputs, tooltips and button option:
    the change handlers of the two classes do the same; for a value that
    counts as true the two classes build the same row (or fail alike); and
    for inputs that are not empty, have no key "trusted_key_servers" and
    only values that count as true, the two classes mount the same rows in
    the same order. *)
Theorem classes_agree `{Collaborators} (c : Collapsible.t) (f : Flat.t) :
  Flat.app_name f = Collapsible.app_name c ->
  Flat.inputs f = Collapsible.inputs c ->
  Flat.tooltips f = Collapsible.tooltips c ->
  Flat.add_fields_button f = Collapsible.add_fields_button c ->
  (forall ev st,
     Flat.input_validation f ev st = Collapsible.input_validation c ev st) /\
  (forall ev st,
     Flat.update_base_yaml_for_switch f ev st
     = Collapsible.update_base_yaml_for_switch c ev st) /\
  (forall key raw,
     truthy raw = true ->
     Flat.generate_input_row f key raw
     = Collapsible.generate_input_row c key raw) /\
  (Collapsible.inputs c <> [] ->
   Forall (fun item => fst item <> "trusted_key_servers"
                       /\ truthy (snd item) = true) (Collapsible.inputs c) ->
   Flat.on_mount f = Collapsible.on_mount c).
Proof.
  intros Happ Hinputs Htips Hbutton.
  split; [intros; now apply input_validation_agree|].
  split; [intros; now apply update_base_yaml_for_switch_agree|].
  split; [intros; now apply generate_input_row_agree|].
  intros Hne Hitems.
  unfold Flat.on_mount, Collapsible.on_mount,
    Flat.query_grid, Collapsible.query_grid,
    Flat.compose_yields_grid, Collapsible.compose_yields_grid.
  rewrite Hinputs, Hbutton, (mount_rows_agree c f _ Happ Htips Hitems).
  destruct (Collapsible.inputs c); [contradiction | reflexivity].
Qed.

(** The owner "vouch" with two inputs. *)
Lemma classes_agree_vouch :
  let inputs :=
    [("admin_user", VStr "admin");
     ("emails", VList [VStr "a@example.com"; VStr "b@example.com"])] in
  let c := sample_collapsible "vouch" inputs
                              [("admin_user", "the first user")] in
  let f := sample_flat "vouch" inputs [("admin_user", "the first user")] in
  (forall ev st,
     Flat.input_validation f ev st = Collapsible.input_validation c ev st) /\
  (forall ev st,
     Flat.update_base_yaml_for_switch f ev st
     = Collapsible.update_base_yaml_for_switch c ev st) /\
  Flat.generate_input_row (H := sample_collaborators) f "admin_user"
                          (VStr "admin")
  = Collapsible.generate_input_row (H := sample_collaborators) c "admin_user"
                                   (VStr "admin") /\
  Flat.on_mount (H := sample_collaborators) f
  = Collapsible.on_mount (H := sample_collaborators) c.
Proof.
  cbv zeta.
  destruct (classes_agree (H := sample_collaborators)
              (sample_collapsible "vouch"
                 [("admin_user", VStr "admin");
                  ("emails",
                   VList [VStr "a@example.com"; VStr "b@example.com"])]
                 [("admin_user", "the first user")])
              (sample_flat "vouch"
                 [("admin_user", VStr "admin");
                  ("emails",
                   VList [VStr "a@example.com"; VStr "b@example.com"])]
                 [("admin_user", "the first user")])
              eq_refl eq_refl eq_refl eq_refl)
    as (Hedit & Hswitch & Hrow & Hmount).
  split; [exact Hedit|]. split; [exact Hswitch|].
  split; [apply Hrow; reflexivity|].
  apply Hmount; [discriminate|].
  repeat (constructor; [split; [discriminate | reflexivity]|]).
  constructor.
Defined.

(** * Further properties of the handlers *)

(** ** Paths: failures and what an assignment leaves alone *)

Lemma update_path_lookup_raise path : forall v f e,
  get_path v path = Raise e -> update_path v path f = Raise e.
Proof.
  induction path as [|k rest IH]; intros v f e Hget; simpl in *.
  - discriminate.
  - destruct (getitem v k) as [child|e'] eqn:Hchild; simpl in *.
    + now rewrite (IH child f e Hget).
    + exact Hget.
Qed.

Lemma update_path_leaf_raise path : forall v w f e,
  get_path v path = Ok w -> f w = Raise e -> update_path v path f = Raise e.
Proof.
  induction path as [|k rest IH]; intros v w f e Hget Hleaf; simpl in *.
  - injection Hget as ->. exact Hleaf.
  - destruct (getitem v k) as [child|e'] eqn:Hchild; simpl in *;
      [|discriminate].
    now rewrite (IH child w f e Hget Hleaf).
Qed.

(** An update that succeeds found something at the end of its path. *)
Lemma update_path_ok_lookup path : forall v f v',
  update_path v path f = Ok v' -> exists w, get_path v path = Ok w.
Proof.
  intros v f v' Hup.
  destruct (get_path v path) as [w|e] eqn:Hget; [eauto|].
  rewrite (update_path_lookup_raise path v f e Hget) in Hup. discriminate.
Qed.

(** Whatever is mutated below [prefix ++ [k1]], what lies below
    [prefix ++ [k2]] stays as it is. *)
Lemma update_path_frame prefix : forall v v' k1 k2 p q f,
  k1 <> k2 ->
  update_path v (prefix ++ k1 :: p) f = Ok v' ->
  get_path v' (prefix ++ k2 :: q) = get_path v (prefix ++ k2 :: q).
Proof.
  induction prefix as [|k prefix IH]; intros v v' k1 k2 p q f Hne Hup;
    simpl in *.
  - destruct (getitem v k1) as [child|e] eqn:Hchild; simpl in Hup;
      [|discriminate].
    destruct (update_path child p f) as [child'|e]; simpl in Hup;
      [|discriminate].
    destruct (getitem_dict _ _ _ Hchild) as (d & -> & _).
    simpl in Hup. injection Hup as <-. simpl.
    now rewrite (dict_get_set_other d k1 k2 child' Hne).
  - destruct (getitem v k) as [child|e] eqn:Hchild; simpl in Hup;
      [|discriminate].
    destruct (update_path child (prefix ++ k1 :: p) f) as [child'|e] eqn:Hup';
      simpl in Hup; [|discriminate].
    destruct (getitem_dict _ _ _ Hchild) as (d & -> & _).
    simpl in Hup. injection Hup as <-. simpl.
    rewrite dict_get_set_same. simpl.
    exact (IH child child' k1 k2 p q f Hne Hup').
Qed.

(** An assignment of the key [k] at the end of [path] leaves every other
    key there as it is. *)
Lemma update_path_assign_frame path v v' k k' x q :
  k <> k' ->
  update_path v path (fun o => setitem o k x) = Ok v' ->
  get_path v' (path ++ k' :: q) = get_path v (path ++ k' :: q).
Proof.
  intros Hne Hup.
  destruct (update_path_ok_lookup _ _ _ _ Hup) as (w & Hget).
  destruct w as [| | | | |d];
    try (rewrite (update_path_leaf_raise path v _ _ TypeError Hget eq_refl)
          in Hup; discriminate).
  destruct (update_path_assign path v d k x Hget) as (v'' & Hup'' & Hget'').
  rewrite Hup in Hup''. injection Hup'' as <-.
  rewrite (get_path_app _ _ (k' :: q) _ Hget''),
    (get_path_app _ _ (k' :: q) _ Hget).
  simpl. now rewrite (dict_get_set_other d k k' x Hne).
Qed.

Lemma dict_set_set {V} (d : list (string * V)) k x y :
  dict_set (dict_set d k x) k y = dict_set d k y.
Proof.
  induction d as [|[k' v] rest IH]; simpl.
  - now rewrite String.eqb_refl.
  - destruct (String.eqb k' k) eqn:E; simpl; rewrite E; [reflexivity|].
    now rewrite IH.
Qed.

(** Doing the same assignment again changes nothing more. *)
Lemma update_path_assign_again path : forall v v' k x,
  update_path v path (fun o => setitem o k x) = Ok v' ->
  update_path v' path (fun o => setitem o k x) = Ok v'.
Proof.
  induction path as [|k0 rest IH]; intros v v' k x Hup; simpl in *.
  - destruct v; simpl in Hup; try discriminate.
    injection Hup as <-. simpl. now rewrite dict_set_set.
  - destruct (getitem v k0) as [child|e] eqn:Hchild; simpl in Hup;
      [|discriminate].
    destruct (update_path child rest (fun o => setitem o k x))
      as [child'|e] eqn:Hup'; simpl in Hup; [|discriminate].
    destruct (getitem_dict _ _ _ Hchild) as (d & -> & _).
    simpl in Hup. injection Hup as <-. simpl.
    rewrite dict_get_set_same. simpl.
    rewrite (IH child child' k x Hup'). simpl.
    now rewrite dict_set_set.
Qed.

(** ** What a run of [input_validation] can do to the state *)

Ltac run_cases :=
  repeat match goal with
         | |- context [if ?b then _ else _] => destruct b eqn:?
         | |- context [match ?x with Ok _ => _ | Raise _ => _ end] =>
             destruct x eqn:?
         end.

Ltac unfold_handler :=
  unfold Collapsible.input_validation, Collapsible.update_base_yaml_for_switch,
    outcome, final, emitted,
    bind, ret, emit, cfg_lookup, cfg_assign, sensitive_assign, write_yaml,
    get_bell_on_error.

(** The document after a run is the document before it, or the result of
    one assignment to the edited field under the owner's [init.values]. *)
Lemma input_validation_cfg (c : Collapsible.t) ev st :
  cfg (final (Collapsible.input_validation c ev st)) = cfg st
  \/ exists x,
       update_path (cfg st)
         ["apps"; Collapsible.app_name c; "init"; "values"]
         (fun o => setitem o (name (input ev)) x)
       = Ok (cfg (final (Collapsible.input_validation c ev st))).
Proof.
  unfold_handler. run_cases; cbn; eauto.
Qed.

(** A run of either class is a run of the collapsible one. *)
Lemma either_input_validation (c : Collapsible.t) (f : Flat.t) ev st run :
  Flat.app_name f = Collapsible.app_name c ->
  run = Collapsible.input_validation c ev st
  \/ run = Flat.input_validation f ev st ->
  run = Collapsible.input_validation c ev st.
Proof.
  intros Happ [-> | ->]; [reflexivity | now apply input_validation_agree].
Qed.

Lemma either_switch (c : Collapsible.t) (f : Flat.t) ev st run :
  Flat.app_name f = Collapsible.app_name c ->
  run = Collapsible.update_base_yaml_for_switch c ev st
  \/ run = Flat.update_base_yaml_for_switch f ev st ->
  run = Collapsible.update_base_yaml_for_switch c ev st.
Proof.
  intros Happ [-> | ->];
    [reflexivity | now apply update_base_yaml_for_switch_agree].
Qed.

(** X1.  A valid edit of a password input whose owner is not list-coerced
    and whose text has no comma, in either class: the text is cached under
    [sensitive_values[owner][name]], the document stays as it is, and no
    write is asked for. *)
Theorem sensitive_scalar_edit_only_cached
        (c : Collapsible.t) (f : Flat.t) ev st run values cache :
  Flat.app_name f = Collapsible.app_name c ->
  run = Collapsible.input_validation c ev st
  \/ run = Flat.input_validation f ev st ->
  is_valid (validation_result ev) = true ->
  password (input ev) = true ->
  str_in (Collapsible.app_name c) ["metallb"; "vouch"] = false ->
  str_contains ","%char (value (input ev)) = false ->
  get_path (cfg st) ["apps"; Collapsible.app_name c; "init"; "values"]
  = Ok values ->
  get_path (sensitive_values st) [Collapsible.app_name c] = Ok (VDict cache) ->
  outcome run = Ok tt /\
  cfg (final run) = cfg st /\
  existsb is_write (emitted run) = false /\
  get_path (sensitive_values (final run))
           [Collapsible.app_name c; name (input ev)]
  = Ok (VStr (value (input ev))).
Proof.
  intros Happ Hrun Hvalid Hpw Howner Hcomma Hget Hcache.
  rewrite (either_input_validation c f ev st run Happ Hrun).
  destruct (update_path_assign_read _ _ _ (name (input ev))
              (VStr (value (input ev))) Hcache) as (seen & Hup & Hread).
  assert (Hrun' :
    Collapsible.input_validation c ev st
    = (Ok tt,
       {| cfg := cfg st; bell_on_error := bell_on_error st;
          sensitive_values := seen |},
       [Log ("saving special value for " ++ name (input ev)
             ++ " to screen cache")])).
  { unfold_handler.
    rewrite Hvalid, Hget, Hpw, Howner, Hcomma.
    cbn [negb orb cfg sensitive_values bell_on_error].
    rewrite Hup. reflexivity. }
  rewrite Hrun'. repeat split. exact Hread.
Qed.

(** The password of "nextcloud", edited to "hunter2". *)
Lemma sensitive_scalar_edit_hunter2 :
  let run := Collapsible.input_validation
               (sample_collapsible "nextcloud" [] [])
               (sample_edit "nextcloud" "admin_password" true "hunter2" [])
               (sample_tui "nextcloud" []) in
  outcome run = Ok tt /\
  cfg (final run) = sample_cfg "nextcloud" [] /\
  existsb is_write (emitted run) = false /\
  get_path (sensitive_values (final run)) ["nextcloud"; "admin_password"]
  = Ok (VStr "hunter2").
Proof.
  apply (sensitive_scalar_edit_only_cached
           (sample_collapsible "nextcloud" [] [])
           (sample_flat "nextcloud" [] [])
           (sample_edit "nextcloud" "admin_password" true "hunter2" [])
           (sample_tui "nextcloud" []) _ (VDict []) []);
    solve [reflexivity | left; reflexivity].
Defined.

(** X2.  A valid edit for an owner whose [init.values] cannot be looked up
    in the document (no such owner, no [init], no [values]): either class
    raises the lookup's exception before anything else, also for a password
    input; the state stays as it is and nothing is emitted. *)
Theorem edit_without_values_section_raises
        (c : Collapsible.t) (f : Flat.t) ev st run e :
  Flat.app_name f = Collapsible.app_name c ->
  run = Collapsible.input_validation c ev st
  \/ run = Flat.input_validation f ev st ->
  is_valid (validation_result ev) = true ->
  get_path (cfg st) ["apps"; Collapsible.app_name c; "init"; "values"]
  = Raise e ->
  run = (Raise e, st, []).
Proof.
  intros Happ Hrun Hvalid Hget.
  rewrite (either_input_validation c f ev st run Happ Hrun).
  unfold_handler. rewrite Hvalid, Hget. reflexivity.
Qed.

(** The owner "vouch" in a document that only has "nextcloud". *)
Lemma edit_without_values_section_vouch :
  Flat.input_validation
    (sample_flat "vouch" [] [])
    (sample_edit "vouch" "emails" false "a@example.com" [])
    (sample_tui "nextcloud" [])
  = (Raise (KeyError "vouch"), sample_tui "nextcloud" [], []).
Proof.
  apply (edit_without_values_section_raises
           (sample_collapsible "vouch" [] [])
           (sample_flat "vouch" [] [])
           (sample_edit "vouch" "emails" false "a@example.com" [])
           (sample_tui "nextcloud" []) _ (KeyError "vouch"));
    solve [reflexivity | right; reflexivity].
Defined.

(** X3.  A valid edit that is to be stored in the document (the input is
    no password input, or the owner is list-coerced, or the text has a
    comma) while [init.values] is there but is no mapping, as with an empty
    [values:] in the YAML: either class raises [TypeError]; nothing is
    stored, cached or written. *)
Theorem edit_with_values_not_a_mapping_raises
        (c : Collapsible.t) (f : Flat.t) ev st run values :
  Flat.app_name f = Collapsible.app_name c ->
  run = Collapsible.input_validation c ev st
  \/ run = Flat.input_validation f ev st ->
  is_valid (validation_result ev) = true ->
  password (input ev) = false
  \/ str_in (Collapsible.app_name c) ["metallb"; "vouch"]
     || str_contains ","%char (value (input ev)) = true ->
  get_path (cfg st) ["apps"; Collapsible.app_name c; "init"; "values"]
  = Ok values ->
  (forall d, values <> VDict d) ->
  run = (Raise TypeError, st, []).
Proof.
  intros Happ Hrun Hvalid Hstored Hget Hshape.
  rewrite (either_input_validation c f ev st run Happ Hrun).
  assert (Hup : forall x,
    update_path (cfg st) ["apps"; Collapsible.app_name c; "init"; "values"]
                (fun o => setitem o (name (input ev)) x) = Raise TypeError).
  { intros x. apply (update_path_leaf_raise _ _ values); [exact Hget|].
    destruct values; try reflexivity. now destruct (Hshape d). }
  unfold_handler. rewrite Hvalid, Hget.
  destruct (str_in (Collapsible.app_name c) ["metallb"; "vouch"]
            || str_contains ","%char (value (input ev))) eqn:Hlist.
  - rewrite Hup. reflexivity.
  - destruct Hstored as [Hpw | Habsurd]; [|discriminate].
    rewrite Hpw. cbn [negb]. rewrite Hup. reflexivity.
Qed.

(** The owner "nextcloud" with an empty [values:]. *)
Lemma edit_with_values_none :
  Collapsible.input_validation
    (sample_collapsible "nextcloud" [] [])
    (sample_edit "nextcloud" "admin_user" false "hello" [])
    (sample_tui_of "nextcloud" VNone (VDict []))
  = (Raise TypeError, sample_tui_of "nextcloud" VNone (VDict []), []).
Proof.
  apply (edit_with_values_not_a_mapping_raises
           (sample_collapsible "nextcloud" [] [])
           (sample_flat "nextcloud" [] [])
           (sample_edit "nextcloud" "admin_user" false "hello" [])
           (sample_tui_of "nextcloud" VNone (VDict [])) _ VNone);
    solve [reflexivity | left; reflexivity | discriminate].
Defined.

(** X4.  A valid edit of a password input when the cache has no section for
    the owner: either class raises the lookup's exception after the log
    line, and the cache stays as it is.  For a text without comma and an
    owner that is not list-coerced the document is untouched; otherwise the
    sanitized list has already been assigned under [init.values] when the
    exception is raised, and stays there. *)
Theorem sensitive_edit_without_cache_section
        (c : Collapsible.t) (f : Flat.t) ev st run vals e :
  Flat.app_name f = Collapsible.app_name c ->
  run = Collapsible.input_validation c ev st
  \/ run = Flat.input_validation f ev st ->
  is_valid (validation_result ev) = true ->
  password (input ev) = true ->
  get_path (cfg st) ["apps"; Collapsible.app_name c; "init"; "values"]
  = Ok (VDict vals) ->
  get_path (sensitive_values st) [Collapsible.app_name c] = Raise e ->
  outcome run = Raise e /\
  emitted run = [Log ("saving special value for " ++ name (input ev)
                      ++ " to screen cache")] /\
  sensitive_values (final run) = sensitive_values st /\
  (str_in (Collapsible.app_name c) ["metallb"; "vouch"]
   || str_contains ","%char (value (input ev)) = false ->
   cfg (final run) = cfg st) /\
  (str_in (Collapsible.app_name c) ["metallb"; "vouch"]
   || str_contains ","%char (value (input ev)) = true ->
   get_path (cfg (final run))
            ["apps"; Collapsible.app_name c; "init"; "values";
             name (input ev)]
   = Ok (VList (map VStr (Util.create_sanitized_list (value (input ev)))))).
Proof.
  intros Happ Hrun Hvalid Hpw Hget Hcache.
  rewrite (either_input_validation c f ev st run Happ Hrun).
  destruct (update_path_assign_read _ _ _ (name (input ev))
              (VList (map VStr (Util.create_sanitized_list (value (input ev)))))
              Hget) as (doc & Hup & Hread).
  pose proof (update_path_lookup_raise _ _
                (fun o => setitem o (name (input ev))
                                  (VStr (value (input ev)))) _ Hcache)
    as Hup'.
  unfold_handler. rewrite Hvalid, Hget, Hpw.
  destruct (str_in (Collapsible.app_name c) ["metallb"; "vouch"]
            || str_contains ","%char (value (input ev))).
  - rewrite Hup. cbn [negb cfg sensitive_values bell_on_error].
    rewrite Hup'. cbn [fst snd cfg sensitive_values app].
    repeat split; try reflexivity; [discriminate | intros _; exact Hread].
  - cbn [negb cfg sensitive_values bell_on_error].
    rewrite Hup'. cbn [fst snd cfg sensitive_values app].
    repeat split; try reflexivity. discriminate.
Qed.

(** The password of "metallb", edited while the cache is empty. *)
Lemma sensitive_edit_without_cache_metallb :
  let run := Collapsible.input_validation
               (sample_collapsible "metallb" [] [])
               (sample_edit "metallb" "bgp_password" true "hunter2" [])
               (sample_tui_of "metallb" (VDict []) (VDict [])) in
  outcome run = Raise (KeyError "metallb") /\
  emitted run
  = [Log "saving special value for bgp_password to screen cache"] /\
  sensitive_values (final run) = VDict [] /\
  (true = false -> cfg (final run) = sample_cfg_of "metallb" (VDict [])) /\
  (true = true ->
   get_path (cfg (final run))
            ["apps"; "metallb"; "init"; "values"; "bgp_password"]
   = Ok (VList [VStr "hunter2"])).
Proof.
  apply (sensitive_edit_without_cache_section
           (sample_collapsible "metallb" [] [])
           (sample_flat "metallb" [] [])
           (sample_edit "metallb" "bgp_password" true "hunter2" [])
           (sample_tui_of "metallb" (VDict []) (VDict [])) _ []
           (KeyError "metallb"));
    solve [reflexivity | left; reflexivity].
Defined.

(** X5.  Whatever the event and the state, and whether the run ends well or
    raises, a run of [input_validation] of either class leaves alone: every
    other field under the owner's [init.values], every other entry of the
    owner's [init], every other owner's section, and everything outside
    [apps]. *)
Theorem edit_leaves_the_rest_alone
        (c : Collapsible.t) (f : Flat.t) ev st run :
  Flat.app_name f = Collapsible.app_name c ->
  run = Collapsible.input_validation c ev st
  \/ run = Flat.input_validation f ev st ->
  (forall field q,
     field <> name (input ev) ->
     get_path (cfg (final run))
              ("apps" :: Collapsible.app_name c :: "init" :: "values"
               :: field :: q)
     = get_path (cfg st)
                ("apps" :: Collapsible.app_name c :: "init" :: "values"
                 :: field :: q)) /\
  (forall entry q,
     entry <> "values" ->
     get_path (cfg (final run))
              ("apps" :: Collapsible.app_name c :: "init" :: entry :: q)
     = get_path (cfg st)
                ("apps" :: Collapsible.app_name c :: "init" :: entry :: q)) /\
  (forall owner q,
     owner <> Collapsible.app_name c ->
     get_path (cfg (final run)) ("apps" :: owner :: q)
     = get_path (cfg st) ("apps" :: owner :: q)) /\
  (forall top q,
     top <> "apps" ->
     get_path (cfg (final run)) (top :: q) = get_path (cfg st) (top :: q)).
Proof.
  intros Happ Hrun.
  rewrite (either_input_validation c f ev st run Happ Hrun).
  destruct (input_validation_cfg c ev st) as [Hsame | (x & Hup)].
  - rewrite Hsame. repeat split; reflexivity.
  - repeat split.
    + intros field q Hne.
      apply (update_path_assign_frame
               ["apps"; Collapsible.app_name c; "init"; "values"]
               _ _ (name (input ev)) field x q);
        [congruence | exact Hup].
    + intros entry q Hne.
      apply (update_path_frame ["apps"; Collapsible.app_name c; "init"]
               _ _ "values" entry [] q
               (fun o => setitem o (name (input ev)) x));
        [congruence | exact Hup].
    + intros owner q Hne.
      apply (update_path_frame ["apps"]
               _ _ (Collapsible.app_name c) owner ["init"; "values"] q
               (fun o => setitem o (name (input ev)) x));
        [congruence | exact Hup].
    + intros top q Hne.
      apply (update_path_frame []
               _ _ "apps" top [Collapsible.app_name c; "init"; "values"] q
               (fun o => setitem o (name (input ev)) x));
        [congruence | exact Hup].
Qed.

(** Rewriting a run with what is known of its tests and lookups. *)
Ltac step_run :=
  unfold_handler;
  repeat (progress
            (repeat match goal with
                    | H : ?l = ?r |- context [?l] => rewrite H
                    end;
             cbn [negb cfg sensitive_values bell_on_error fst snd])).

Lemma assign_again_lookup path v v' k x :
  update_path v path (fun o => setitem o k x) = Ok v' ->
  update_path v' path (fun o => setitem o k x) = Ok v' /\
  exists w, get_path v' path = Ok w.
Proof.
  intros Hup. pose proof (update_path_assign_again _ _ _ _ _ Hup) as Hagain.
  split; [exact Hagain | exact (update_path_ok_lookup _ _ _ _ Hagain)].
Qed.

Lemma input_validation_again (c : Collapsible.t) ev st :
  Collapsible.input_validation c ev
    (final (Collapsible.input_validation c ev st))
  = Collapsible.input_validation c ev st.
Proof.
  destruct (is_valid (validation_result ev)) eqn:Hv.
  2:{ rewrite (invalid_edit_run c ev st Hv). cbn [final fst snd].
      apply invalid_edit_run; assumption. }
  destruct (get_path (cfg st)
              ["apps"; Collapsible.app_name c; "init"; "values"])
    as [w|e] eqn:Hget.
  2:{ step_run. reflexivity. }
  destruct (str_in (Collapsible.app_name c) ["metallb"; "vouch"]
            || str_contains ","%char (value (input ev))) eqn:Hc;
    destruct (password (input ev)) eqn:Hp.
  - destruct (update_path (cfg st)
                ["apps"; Collapsible.app_name c; "init"; "values"]
                (fun o => setitem o (name (input ev))
                   (VList (map VStr
                      (Util.create_sanitized_list (value (input ev)))))))
      as [doc|e] eqn:Hup.
    + destruct (assign_again_lookup _ _ _ _ _ Hup) as (Hup2 & w2 & Hget2).
      destruct (update_path (sensitive_values st) [Collapsible.app_name c]
                  (fun o => setitem o (name (input ev))
                                    (VStr (value (input ev)))))
        as [seen|e] eqn:Hs.
      * destruct (assign_again_lookup _ _ _ _ _ Hs) as (Hs2 & _).
        step_run. reflexivity.
      * step_run. reflexivity.
    + step_run. reflexivity.
  - destruct (update_path (cfg st)
                ["apps"; Collapsible.app_name c; "init"; "values"]
                (fun o => setitem o (name (input ev))
                   (VList (map VStr
                      (Util.create_sanitized_list (value (input ev)))))))
      as [doc|e] eqn:Hup.
    + destruct (assign_again_lookup _ _ _ _ _ Hup) as (Hup2 & w2 & Hget2).
      step_run. reflexivity.
    + step_run. reflexivity.
  - destruct (update_path (sensitive_values st) [Collapsible.app_name c]
                (fun o => setitem o (name (input ev))
                                  (VStr (value (input ev)))))
      as [seen|e] eqn:Hs.
    + destruct (assign_again_lookup _ _ _ _ _ Hs) as (Hs2 & _).
      step_run. reflexivity.
    + step_run. reflexivity.
  - destruct (update_path (cfg st)
                ["apps"; Collapsible.app_name c; "init"; "values"]
                (fun o => setitem o (name (input ev))
                                  (VStr (value (input ev)))))
      as [doc|e] eqn:Hup.
    + destruct (assign_again_lookup _ _ _ _ _ Hup) as (Hup2 & w2 & Hget2).
      step_run. reflexivity.
    + step_run. reflexivity.
Qed.

(** X6.  Handling the same event again, from the state a run of either
    class left, gives the same outcome, the same effects and leaves that
    state as it is: also after a run that raised. *)
Theorem edit_again_changes_nothing
        (c : Collapsible.t) (f : Flat.t) ev st run :
  Flat.app_name f = Collapsible.app_name c ->
  run = Collapsible.input_validation c ev st
  \/ run = Flat.input_validation f ev st ->
  Collapsible.input_validation c ev (final run) = run /\
  Flat.input_validation f ev (final run) = run.
Proof.
  intros Happ Hrun.
  rewrite (either_input_validation c f ev st run Happ Hrun).
  rewrite (input_validation_agree c f ev _ Happ).
  split; apply input_validation_again.
Qed.

(** The list edit of "metallb", handled twice. *)
Lemma edit_again_metallb :
  let run := Flat.input_validation
               (sample_flat "metallb" [] [])
               (sample_edit "metallb" "address_pool" false "1.2.3.4,5.6.7.8" [])
               (sample_tui "metallb" []) in
  Collapsible.input_validation
    (sample_collapsible "metallb" [] [])
    (sample_edit "metallb" "address_pool" false "1.2.3.4,5.6.7.8" [])
    (final run) = run /\
  Flat.input_validation
    (sample_flat "metallb" [] [])
    (sample_edit "metallb" "address_pool" false "1.2.3.4,5.6.7.8" [])
    (final run) = run.
Proof.
  apply (edit_again_changes_nothing
           (sample_collapsible "metallb" [] [])
           (sample_flat "metallb" [] [])
           (sample_edit "metallb" "address_pool" false "1.2.3.4,5.6.7.8" [])
           (sample_tui "metallb" []));
    solve [reflexivity | right; reflexivity].
Defined.

(** The other field of "nextcloud" reads the same after an edit. *)
Lemma edit_leaves_admin_email_alone :
  get_path
    (cfg (final (Collapsible.input_validation
                   (sample_collapsible "nextcloud" [] [])
                   (sample_edit "nextcloud" "admin_user" false "hello" [])
                   (sample_tui "nextcloud"
                      [("admin_user", VStr "admin");
                       ("admin_email", VStr "a@example.com")]))))
    ["apps"; "nextcloud"; "init"; "values"; "admin_email"]
  = Ok (VStr "a@example.com").
Proof.
  destruct (edit_leaves_the_rest_alone
              (sample_collapsible "nextcloud" [] [])
              (sample_flat "nextcloud" [] [])
              (sample_edit "nextcloud" "admin_user" false "hello" [])
              (sample_tui "nextcloud"
                 [("admin_user", VStr "admin");
                  ("admin_email", VStr "a@example.com")])
              _ eq_refl (or_introl eq_refl)) as (Hfield & _).
  refine (eq_trans (Hfield "admin_email" [] _) _);
    [discriminate | reflexivity].
Defined.

Lemma dict_set_keys_present {V} (d : list (string * V)) k x v :
  dict_get d k = Some v -> map fst (dict_set d k x) = map fst d.
Proof.
  induction d as [|[k' v'] rest IH]; simpl; [discriminate|].
  destruct (String.eqb k' k); simpl; [reflexivity|].
  intros Hget. now rewrite (IH Hget).
Qed.

Lemma dict_set_keys_absent {V} (d : list (string * V)) k x :
  dict_get d k = None -> map fst (dict_set d k x) = (map fst d ++ [k])%list.
Proof.
  induction d as [|[k' v'] rest IH]; simpl; [reflexivity|].
  destruct (String.eqb k' k); simpl; [discriminate|].
  intros Hget. now rewrite (IH Hget).
Qed.

(** X7.  If the owner's [init.values] is a mapping before a run of
    [input_validation] of either class, it is one after it, whatever the
    event and the outcome: with the same fields in the same order, or with
    the edited field, which was not there, added as the last one. *)
Theorem edit_keeps_fields_in_order
        (c : Collapsible.t) (f : Flat.t) ev st run vals :
  Flat.app_name f = Collapsible.app_name c ->
  run = Collapsible.input_validation c ev st
  \/ run = Flat.input_validation f ev st ->
  get_path (cfg st) ["apps"; Collapsible.app_name c; "init"; "values"]
  = Ok (VDict vals) ->
  exists vals',
    get_path (cfg (final run))
             ["apps"; Collapsible.app_name c; "init"; "values"]
    = Ok (VDict vals') /\
    (map fst vals' = map fst vals
     \/ (dict_get vals (name (input ev)) = None /\
         map fst vals' = (map fst vals ++ [name (input ev)])%list)).
Proof.
  intros Happ Hrun Hget.
  rewrite (either_input_validation c f ev st run Happ Hrun).
  destruct (input_validation_cfg c ev st) as [Hsame | (x & Hup)].
  - exists vals. rewrite Hsame. split; [exact Hget | left; reflexivity].
  - destruct (update_path_assign _ _ _ (name (input ev)) x Hget)
      as (doc & Hup' & Hget').
    rewrite Hup in Hup'. injection Hup' as <-.
    exists (dict_set vals (name (input ev)) x). split; [exact Hget'|].
    destruct (dict_get vals (name (input ev))) as [v|] eqn:Hfield.
    + left. exact (dict_set_keys_present _ _ _ _ Hfield).
    + right. split; [reflexivity|].
      exact (dict_set_keys_absent _ _ _ Hfield).
Qed.

(** A new field of "nextcloud" goes after the two that are there. *)
Lemma edit_keeps_fields_in_order_nextcloud :
  exists vals',
    get_path
      (cfg (final (Flat.input_validation
                     (sample_flat "nextcloud" [] [])
                     (sample_edit "nextcloud" "smtp_host" false "mail" [])
                     (sample_tui "nextcloud"
                        [("admin_user", VStr "admin");
                         ("admin_email", VStr "a@example.com")]))))
      ["apps"; "nextcloud"; "init"; "values"]
    = Ok (VDict vals') /\
    (map fst vals' = ["admin_user"; "admin_email"]
     \/ (dict_get [("admin_user", VStr "admin");
                   ("admin_email", VStr "a@example.com")] "smtp_host" = None /\
         map fst vals' = ["admin_user"; "admin_email"; "smtp_host"])).
Proof.
  apply (edit_keeps_fields_in_order
           (sample_collapsible "nextcloud" [] [])
           (sample_flat "nextcloud" [] [])
           (sample_edit "nextcloud" "smtp_host" false "mail" [])
           (sample_tui "nextcloud"
              [("admin_user", VStr "admin");
               ("admin_email", VStr "a@example.com")])
           _ [("admin_user", VStr "admin");
              ("admin_email", VStr "a@example.com")]);
    solve [reflexivity | right; reflexivity].
Defined.

(** X8.  A run of [input_validation] of either class for a password input
    asks for no write of the document: whatever the text, the verdict, the
    state and the outcome. *)
Theorem password_edit_never_writes
        (c : Collapsible.t) (f : Flat.t) ev st run :
  Flat.app_name f = Collapsible.app_name c ->
  run = Collapsible.input_validation c ev st
  \/ run = Flat.input_validation f ev st ->
  password (input ev) = true ->
  existsb is_write (emitted run) = false.
Proof.
  intros Happ Hrun Hpw.
  rewrite (either_input_validation c f ev st run Happ Hrun).
  unfold_handler. rewrite Hpw. cbn [negb]. run_cases; reflexivity.
Qed.

(** The leaking edit of "metallb" is not written either. *)
Lemma password_edit_never_writes_metallb :
  existsb is_write
    (emitted (Collapsible.input_validation
                (sample_collapsible "metallb" [] [])
                (sample_edit "metallb" "bgp_password" true "hunter2" [])
                (sample_tui "metallb" [])))
  = false.
Proof.
  apply (password_edit_never_writes
           (sample_collapsible "metallb" [] [])
           (sample_flat "metallb" [] [])
           (sample_edit "metallb" "bgp_password" true "hunter2" [])
           (sample_tui "metallb" []));
    solve [reflexivity | left; reflexivity].
Defined.

(** X9.  A run of [input_validation] of either class for an input that is
    no password input leaves the cache of sensitive values as it is, and no
    run changes [bell_on_error]. *)
Theorem plain_edit_never_touches_cache
        (c : Collapsible.t) (f : Flat.t) ev st run :
  Flat.app_name f = Collapsible.app_name c ->
  run = Collapsible.input_validation c ev st
  \/ run = Flat.input_validation f ev st ->
  bell_on_error (final run) = bell_on_error st /\
  (password (input ev) = false ->
   sensitive_values (final run) = sensitive_values st).
Proof.
  intros Happ Hrun.
  rewrite (either_input_validation c f ev st run Happ Hrun).
  split.
  - unfold_handler. run_cases; cbn [fst snd bell_on_error]; congruence.
  - intros Hpw. unfold_handler. rewrite Hpw. cbn [negb].
    run_cases; reflexivity.
Qed.

(** The scalar edit of "nextcloud" with a filled cache. *)
Lemma plain_edit_never_touches_cache_nextcloud :
  let st := sample_tui_of "nextcloud" (VDict [])
              (VDict [("nextcloud",
                       VDict [("admin_password", VStr "hunter2")])]) in
  let run := Collapsible.input_validation
               (sample_collapsible "nextcloud" [] [])
               (sample_edit "nextcloud" "admin_user" false "hello" []) st in
  bell_on_error (final run) = true /\
  (false = false ->
   sensitive_values (final run)
   = VDict [("nextcloud", VDict [("admin_password", VStr "hunter2")])]).
Proof.
  apply (plain_edit_never_touches_cache
           (sample_collapsible "nextcloud" [] [])
           (sample_flat "nextcloud" [] [])
           (sample_edit "nextcloud" "admin_user" false "hello" [])
           (sample_tui_of "nextcloud" (VDict [])
              (VDict [("nextcloud",
                       VDict [("admin_password", VStr "hunter2")])])));
    solve [reflexivity | left; reflexivity].
Defined.

(** ** The switch handler *)

Lemma switch_cfg (c : Collapsible.t) ev st :
  cfg (final (Collapsible.update_base_yaml_for_switch c ev st)) = cfg st
  \/ update_path (cfg st) ["apps"; Collapsible.app_name c; "init"]
       (fun o => setitem o (switch_name ev) (VBool (switch_value ev)))
     = Ok (cfg (final (Collapsible.update_base_yaml_for_switch c ev st))).
Proof.
  unfold_handler. run_cases; cbn; eauto.
Qed.

(** X10.  A switch change for an owner whose [init] cannot be looked up in
    the document, or is no mapping: either class raises (the lookup's
    exception, or [TypeError]); nothing is assigned, no write is asked for
    and no notice is emitted, also for "create_minio_tenant". *)
Theorem switch_without_init_section_raises
        (c : Collapsible.t) (f : Flat.t) ev st run e :
  Flat.app_name f = Collapsible.app_name c ->
  run = Collapsible.update_base_yaml_for_switch c ev st
  \/ run = Flat.update_base_yaml_for_switch f ev st ->
  get_path (cfg st) ["apps"; Collapsible.app_name c; "init"] = Raise e
  \/ (e = TypeError /\
      exists w,
        get_path (cfg st) ["apps"; Collapsible.app_name c; "init"] = Ok w /\
        forall d, w <> VDict d) ->
  run = (Raise e, st, []).
Proof.
  intros Happ Hrun Hinit.
  rewrite (either_switch c f ev st run Happ Hrun).
  assert (Hup :
    update_path (cfg st) ["apps"; Collapsible.app_name c; "init"]
      (fun o => setitem o (switch_name ev) (VBool (switch_value ev)))
    = Raise e).
  { destruct Hinit as [Hget | (-> & w & Hget & Hshape)].
    - exact (update_path_lookup_raise _ _ _ _ Hget).
    - apply (update_path_leaf_raise _ _ w); [exact Hget|].
      destruct w; try reflexivity. now destruct (Hshape d). }
  unfold_handler. rewrite Hup. reflexivity.
Qed.

(** The tenant switch of "vouch" in a document that only has "nextcloud". *)
Lemma switch_without_init_section_vouch :
  Collapsible.update_base_yaml_for_switch
    (sample_collapsible "vouch" [] [])
    (mkSwitchChanged "create_minio_tenant" true)
    (sample_tui "nextcloud" [])
  = (Raise (KeyError "vouch"), sample_tui "nextcloud" [], []).
Proof.
  apply (switch_without_init_section_raises
           (sample_collapsible "vouch" [] [])
           (sample_flat "vouch" [] [])
           (mkSwitchChanged "create_minio_tenant" true)
           (sample_tui "nextcloud" []) _ (KeyError "vouch"));
    solve [reflexivity | left; reflexivity].
Defined.

(** X11.  A switch change, in either class and whatever its outcome, leaves
    alone: every other entry of the owner's [init] (so the fields under
    [init.values], unless the switch is named "values"), every other
    owner's section, everything outside [apps], the cache of sensitive
    values and [bell_on_error]. *)
Theorem switch_leaves_the_rest_alone
        (c : Collapsible.t) (f : Flat.t) ev st run :
  Flat.app_name f = Collapsible.app_name c ->
  run = Collapsible.update_base_yaml_for_switch c ev st
  \/ run = Flat.update_base_yaml_for_switch f ev st ->
  (forall entry q,
     entry <> switch_name ev ->
     get_path (cfg (final run))
              ("apps" :: Collapsible.app_name c :: "init" :: entry :: q)
     = get_path (cfg st)
                ("apps" :: Collapsible.app_name c :: "init" :: entry :: q)) /\
  (forall owner q,
     owner <> Collapsible.app_name c ->
     get_path (cfg (final run)) ("apps" :: owner :: q)
     = get_path (cfg st) ("apps" :: owner :: q)) /\
  (forall top q,
     top <> "apps" ->
     get_path (cfg (final run)) (top :: q) = get_path (cfg st) (top :: q)) /\
  sensitive_values (final run) = sensitive_values st /\
  bell_on_error (final run) = bell_on_error st.
Proof.
  intros Happ Hrun.
  rewrite (either_switch c f ev st run Happ Hrun).
  assert (Hrest :
    sensitive_values (final (Collapsible.update_base_yaml_for_switch c ev st))
    = sensitive_values st /\
    bell_on_error (final (Collapsible.update_base_yaml_for_switch c ev st))
    = bell_on_error st).
  { unfold_handler. run_cases; split; reflexivity. }
  destruct (switch_cfg c ev st) as [Hsame | Hup].
  - rewrite Hsame. repeat split; solve [reflexivity | apply Hrest].
  - repeat split; try apply Hrest.
    + intros entry q Hne.
      apply (update_path_assign_frame
               ["apps"; Collapsible.app_name c; "init"]
               _ _ (switch_name ev) entry (VBool (switch_value ev)) q);
        [congruence | exact Hup].
    + intros owner q Hne.
      apply (update_path_frame ["apps"]
               _ _ (Collapsible.app_name c) owner ["init"] q
               (fun o => setitem o (switch_name ev)
                                 (VBool (switch_value ev))));
        [congruence | exact Hup].
    + intros top q Hne.
      apply (update_path_frame []
               _ _ "apps" top [Collapsible.app_name c; "init"] q
               (fun o => setitem o (switch_name ev)
                                 (VBool (switch_value ev))));
        [congruence | exact Hup].
Qed.

(** The fields of "nextcloud" read the same after the tenant switch. *)
Lemma switch_leaves_values_alone :
  get_path
    (cfg (final (Flat.update_base_yaml_for_switch
                   (sample_flat "nextcloud" [] [])
                   (mkSwitchChanged "create_minio_tenant" true)
                   (sample_tui "nextcloud" [("admin_user", VStr "admin")]))))
    ["apps"; "nextcloud"; "init"; "values"]
  = Ok (VDict [("admin_user", VStr "admin")]).
Proof.
  destruct (switch_leaves_the_rest_alone
              (sample_collapsible "nextcloud" [] [])
              (sample_flat "nextcloud" [] [])
              (mkSwitchChanged "create_minio_tenant" true)
              (sample_tui "nextcloud" [("admin_user", VStr "admin")])
              _ eq_refl (or_intror eq_refl)) as (Hentry & _).
  refine (eq_trans (Hentry "values" [] _) _); [discriminate | reflexivity].
Defined.

(** ** Edits one after the other *)

Lemma plain_edit_run_full (c : Collapsible.t) ev st vals :
  is_valid (validation_result ev) = true ->
  password (input ev) = false ->
  get_path (cfg st) ["apps"; Collapsible.app_name c; "init"; "values"]
  = Ok (VDict vals) ->
  exists doc,
    Collapsible.input_validation c ev st
    = (Ok tt,
       {| cfg := doc; bell_on_error := bell_on_error st;
          sensitive_values := sensitive_values st |},
       [WriteYaml doc]) /\
    update_path (cfg st) ["apps"; Collapsible.app_name c; "init"; "values"]
      (fun o => setitem o (name (input ev))
                  (plain_stored (Collapsible.app_name c) (value (input ev))))
    = Ok doc /\
    get_path doc ["apps"; Collapsible.app_name c; "init"; "values"]
    = Ok (VDict (dict_set vals (name (input ev))
                   (plain_stored (Collapsible.app_name c)
                                 (value (input ev))))).
Proof.
  intros Hvalid Hpw Hget.
  destruct (update_path_assign _ _ _ (name (input ev))
              (plain_stored (Collapsible.app_name c) (value (input ev))) Hget)
    as (doc & Hup & Hget').
  exists doc. split; [|split; [exact Hup | exact Hget']].
  unfold Collapsible.input_validation, bind, cfg_lookup.
  rewrite Hvalid, Hget, Hpw.
  unfold plain_stored in Hup.
  destruct (str_in (Collapsible.app_name c) ["metallb"; "vouch"]
            || str_contains ","%char (value (input ev)));
    cbn [negb]; unfold cfg_assign; rewrite Hup; reflexivity.
Qed.

(** X12.  Two valid edits of inputs that are no password inputs, handled
    one after the other by widgets of either class for the same owner: the
    second run ends well and asks once for the document it leaves to be
    written; that document holds what the second edit stored, and, if the
    two inputs differ, what the first one stored. *)
Theorem two_edits_both_stored
        (c : Collapsible.t) (f : Flat.t) ev1 ev2 st run1 run2 vals :
  Flat.app_name f = Collapsible.app_name c ->
  run1 = Collapsible.input_validation c ev1 st
  \/ run1 = Flat.input_validation f ev1 st ->
  run2 = Collapsible.input_validation c ev2 (final run1)
  \/ run2 = Flat.input_validation f ev2 (final run1) ->
  is_valid (validation_result ev1) = true ->
  is_valid (validation_result ev2) = true ->
  password (input ev1) = false ->
  password (input ev2) = false ->
  get_path (cfg st) ["apps"; Collapsible.app_name c; "init"; "values"]
  = Ok (VDict vals) ->
  outcome run2 = Ok tt /\
  emitted run2 = [WriteYaml (cfg (final run2))] /\
  get_path (cfg (final run2))
           ["apps"; Collapsible.app_name c; "init"; "values";
            name (input ev2)]
  = Ok (plain_stored (Collapsible.app_name c) (value (input ev2))) /\
  (name (input ev1) <> name (input ev2) ->
   get_path (cfg (final run2))
            ["apps"; Collapsible.app_name c; "init"; "values";
             name (input ev1)]
   = Ok (plain_stored (Collapsible.app_name c) (value (input ev1)))).
Proof.
  intros Happ Hrun1 Hrun2 Hv1 Hv2 Hp1 Hp2 Hget.
  rewrite (either_input_validation c f ev1 st run1 Happ Hrun1) in *.
  rewrite (either_input_validation c f ev2 _ run2 Happ Hrun2).
  destruct (plain_edit_run_full c ev1 st vals Hv1 Hp1 Hget)
    as (doc1 & Hr1 & Hup1 & Hget1).
  rewrite Hr1. cbn [final fst snd].
  destruct (plain_edit_run_full c ev2
              {| cfg := doc1; bell_on_error := bell_on_error st;
                 sensitive_values := sensitive_values st |}
              _ Hv2 Hp2 Hget1) as (doc2 & Hr2 & Hup2 & Hget2).
  rewrite Hr2. cbn [outcome emitted final fst snd cfg].
  cbn [cfg] in Hup2, Hget2.
  split; [reflexivity | split; [reflexivity | split]].
  - etransitivity;
      [exact (get_path_app _ _ [name (input ev2)] _ Hget2)|].
    simpl. now rewrite dict_get_set_same.
  - intros Hne.
    etransitivity;
      [exact (get_path_app _ _ [name (input ev1)] _ Hget2)|].
    simpl. rewrite (dict_get_set_other _ _ _ _ (not_eq_sym Hne)).
    now rewrite dict_get_set_same.
Qed.

(** Two fields of "nextcloud", edited through a widget of each class. *)
Lemma two_edits_nextcloud :
  let run1 := Collapsible.input_validation
                (sample_collapsible "nextcloud" [] [])
                (sample_edit "nextcloud" "admin_user" false "hello" [])
                (sample_tui "nextcloud" []) in
  let run2 := Flat.input_validation
                (sample_flat "nextcloud" [] [])
                (sample_edit "nextcloud" "emails" false "a@b.c, d@e.f" [])
                (final run1) in
  outcome run2 = Ok tt /\
  emitted run2 = [WriteYaml (cfg (final run2))] /\
  get_path (cfg (final run2))
           ["apps"; "nextcloud"; "init"; "values"; "emails"]
  = Ok (VList [VStr "a@b.c"; VStr "d@e.f"]) /\
  ("admin_user" <> "emails" ->
   get_path (cfg (final run2))
            ["apps"; "nextcloud"; "init"; "values"; "admin_user"]
   = Ok (VStr "hello")).
Proof.
  apply (two_edits_both_stored
           (sample_collapsible "nextcloud" [] [])
           (sample_flat "nextcloud" [] [])
           (sample_edit "nextcloud" "admin_user" false "hello" [])
           (sample_edit "nextcloud" "emails" false "a@b.c, d@e.f" [])
           (sample_tui "nextcloud" [])
           (Collapsible.input_validation
              (sample_collapsible "nextcloud" [] [])
              (sample_edit "nextcloud" "admin_user" false "hello" [])
              (sample_tui "nextcloud" []))
           _ []);
    solve [reflexivity | left; reflexivity | right; reflexivity].
Defined.

(** * Further properties of the rows *)

(** The cases of [generate_input_row], once unfolded in [Hrow]: the value
    counts as true and is a scalar, a sequence that could be joined or a
    mapping that could be resolved, or it counts as false; then the cases of
    the help text. *)
Ltac row_analysis Hrow raw tips key owner :=
  let l := fresh "l" in
  let d := fresh "d" in
  unfold tooltip_truthy, tooltip_text in Hrow;
  destruct (truthy raw) eqn:Htruthy;
  [ destruct raw as [| ? | ? | ? | l | d];
    [ | | |
      | destruct (match l with
                  | VStr _ :: _ => str_join ", " l
                  | VList inner :: _ => str_join ", " inner
                  | _ :: _ => Raise (UnboundLocalError "sequence_value")
                  | [] => Raise IndexError
                  end) as [joined|e] eqn:Hjoined; [|discriminate Hrow]
      | destruct (extract_secret d) as [secret|e] eqn:Hsecret;
        [|discriminate Hrow] ]
  | ];
  (destruct (dict_get tips key) as [explicit|] eqn:Hexplicit;
   [destruct (String.eqb explicit "") eqn:Hempty|]);
  destruct (String.eqb key "s3_provider") eqn:Hs3;
  destruct (String.eqb owner "metallb") eqn:Hmetallb;
  framework_cases Hrow;
  first [discriminate Hrow | injection Hrow as <-].

(** Which row it is, for either class. *)
Lemma row_identity `{Collaborators}
      (c : Collapsible.t) (f : Flat.t) key raw row :
  Flat.app_name f = Collapsible.app_name c ->
  Flat.tooltips f = Collapsible.tooltips c ->
  Collapsible.generate_input_row c key raw = Ok row
  \/ Flat.generate_input_row f key raw = Ok row ->
  name (row_input row) = key /\
  id (row_input row)
  = String.concat "-" [Collapsible.app_name c; key; "input"] /\
  placeholder (row_input row)
  = placeholder_grammar (str_replace "_" " " key) /\
  row_label row = str_replace "_" " " key ++ ":".
Proof.
  intros Happ Htips [Hrow | Hrow].
  - unfold Collapsible.generate_input_row in Hrow.
    row_analysis Hrow raw (Collapsible.tooltips c) key (Collapsible.app_name c);
      repeat split.
  - unfold Flat.generate_input_row in Hrow. rewrite Happ, Htips in Hrow.
    row_analysis Hrow raw (Collapsible.tooltips c) key (Collapsible.app_name c);
      repeat split.
Qed.

Lemma append_empty (s t : string) : s ++ t = "" -> s = "" /\ t = "".
Proof.
  destruct s; simpl; [auto | discriminate].
Qed.

Ltac close_sensitive :=
  cbn [password row_input set_tooltip Input_of_keys with_value with_password
       ik_password];
  split;
  [ intros Hpw;
    first [ discriminate Hpw
          | eexists; split;
            [reflexivity | intros ->; simpl in *; congruence] ]
  | intros (d' & Hd & Hne);
    first [ discriminate Hd
          | reflexivity
          | try (injection Hd; intros; subst); subst;
            destruct d'; simpl in *; congruence ] ].

(** X13.  In a row built by either class the input is a password input
    exactly when the value was a mapping that is not empty. *)
Theorem row_sensitive_iff_mapping `{Collaborators}
        (c : Collapsible.t) (f : Flat.t) key raw row :
  Flat.app_name f = Collapsible.app_name c ->
  Flat.tooltips f = Collapsible.tooltips c ->
  Collapsible.generate_input_row c key raw = Ok row
  \/ Flat.generate_input_row f key raw = Ok row ->
  (password (row_input row) = true <-> exists d, raw = VDict d /\ d <> []).
Proof.
  intros Happ Htips [Hrow | Hrow].
  - unfold Collapsible.generate_input_row in Hrow.
    row_analysis Hrow raw (Collapsible.tooltips c) key (Collapsible.app_name c);
      close_sensitive.
  - unfold Flat.generate_input_row in Hrow. rewrite Happ, Htips in Hrow.
    row_analysis Hrow raw (Collapsible.tooltips c) key (Collapsible.app_name c);
      close_sensitive.
Qed.

(** The mapping of "nextcloud" makes a password input. *)
Lemma row_sensitive_iff_mapping_secret :
  password (row_input sample_secret_row) = true
  <-> exists d,
        VDict [("value_from", VDict [("env", VStr "NEXTCLOUD_ADMIN_PASSWORD")])]
        = VDict d /\ d <> [].
Proof.
  apply (row_sensitive_iff_mapping (H := sample_collaborators)
           (sample_collapsible "nextcloud" [] [])
           (sample_flat "nextcloud" [] [])
           "admin_password"
           (VDict [("value_from",
                    VDict [("env", VStr "NEXTCLOUD_ADMIN_PASSWORD")])])
           sample_secret_row);
    solve [reflexivity | left; reflexivity].
Defined.

Ltac close_nonempty Heq :=
  first [ discriminate Heq
        | apply append_empty in Heq;
          let Hr := fresh "Hr" in
          destruct Heq as [Heq Hr];
          first [discriminate Hr | close_nonempty Heq]
        | subst; simpl in *; congruence ].

(** X14.  Every row built by either class has a help text that is not
    empty, whatever the tooltips mapping holds and whatever phrase
    [placeholder_grammar] returns. *)
Theorem row_has_help_text `{Collaborators}
        (c : Collapsible.t) (f : Flat.t) key raw row :
  Flat.app_name f = Collapsible.app_name c ->
  Flat.tooltips f = Collapsible.tooltips c ->
  Collapsible.generate_input_row c key raw = Ok row
  \/ Flat.generate_input_row f key raw = Ok row ->
  tooltip (row_input row) <> "".
Proof.
  intros Happ Htips [Hrow | Hrow].
  - unfold Collapsible.generate_input_row in Hrow.
    row_analysis Hrow raw (Collapsible.tooltips c) key (Collapsible.app_name c);
      cbn [tooltip row_input set_tooltip]; intros Heq;
      unfold env_var_tooltip, s3_provider_tooltip, metallb_suffix in Heq;
      close_nonempty Heq.
  - unfold Flat.generate_input_row in Hrow. rewrite Happ, Htips in Hrow.
    row_analysis Hrow raw (Collapsible.tooltips c) key (Collapsible.app_name c);
      cbn [tooltip row_input set_tooltip]; intros Heq;
      unfold env_var_tooltip, s3_provider_tooltip, metallb_suffix in Heq;
      close_nonempty Heq.
Qed.

(** The password input of "nextcloud" has one. *)
Lemma row_has_help_text_secret :
  tooltip (row_input sample_secret_row) <> "".
Proof.
  apply (row_has_help_text (H := sample_collaborators)
           (sample_collapsible "nextcloud" [] [])
           (sample_flat "nextcloud" [] [])
           "admin_password"
           (VDict [("value_from",
                    VDict [("env", VStr "NEXTCLOUD_ADMIN_PASSWORD")])])
           sample_secret_row);
    solve [reflexivity | left; reflexivity].
Defined.

(** X15.  For a string, empty or not, the flat class always builds a row:
    its input is no password input and holds the string as it is, and that
    string is what is validated.  The collapsible class builds the same row
    when the string is not empty. *)
Theorem string_row_shown_as_is `{Collaborators}
        (c : Collapsible.t) (f : Flat.t) key s :
  Flat.app_name f = Collapsible.app_name c ->
  Flat.tooltips f = Collapsible.tooltips c ->
  exists row,
    Flat.generate_input_row f key (VStr s) = Ok row /\
    (s <> "" -> Collapsible.generate_input_row c key (VStr s) = Ok row) /\
    password (row_input row) = false /\
    value (row_input row) = Some (VStr s) /\
    row_validated row = VStr s.
Proof.
  intros Happ Htips.
  assert (Hflat : exists row,
    Flat.generate_input_row f key (VStr s) = Ok row /\
    password (row_input row) = false /\
    value (row_input row) = Some (VStr s) /\
    row_validated row = VStr s).
  { unfold Flat.generate_input_row, tooltip_truthy.
    destruct (truthy (VStr s));
      (destruct (dict_get (Flat.tooltips f) key) as [explicit|];
       [destruct (String.eqb explicit "")|]);
      destruct (String.eqb key "s3_provider");
      cbn; eexists; (split; [reflexivity|]); repeat split. }
  destruct Hflat as (row & Hrow & Hpw & Hshown & Hvalidated).
  exists row. split; [exact Hrow|].
  split; [|split; [exact Hpw | split; [exact Hshown | exact Hvalidated]]].
  intros Hne.
  assert (Htrue : truthy (VStr s) = true).
  { cbn. destruct (String.eqb_spec s ""); [contradiction | reflexivity]. }
  now rewrite <- (generate_input_row_agree c f key (VStr s) Happ Htips Htrue).
Qed.

(** The user name "admin" of "nextcloud". *)
Lemma string_row_admin :
  exists row,
    Flat.generate_input_row (H := sample_collaborators)
      (sample_flat "nextcloud" [] []) "admin_user" (VStr "admin") = Ok row /\
    ("admin" <> "" ->
     Collapsible.generate_input_row (H := sample_collaborators)
       (sample_collapsible "nextcloud" [] []) "admin_user" (VStr "admin")
     = Ok row) /\
    password (row_input row) = false /\
    value (row_input row) = Some (VStr "admin") /\
    row_validated row = VStr "admin".
Proof.
  apply (string_row_shown_as_is (H := sample_collaborators)
           (sample_collapsible "nextcloud" [] [])
           (sample_flat "nextcloud" [] [])
           "admin_user" "admin"); reflexivity.
Defined.

(** X16.  When [extract_secret] raises on a mapping that is not empty, so
    does [generate_input_row] of either class, with the same exception: no
    row is built. *)
Theorem secret_failure_aborts_row `{Collaborators}
        (c : Collapsible.t) (f : Flat.t) key d e :
  d <> [] ->
  extract_secret d = Raise e ->
  Collapsible.generate_input_row c key (VDict d) = Raise e /\
  Flat.generate_input_row f key (VDict d) = Raise e.
Proof.
  intros Hne Hsecret.
  assert (Htrue : truthy (VDict d) = true).
  { destruct d; [contradiction | reflexivity]. }
  unfold Collapsible.generate_input_row, Flat.generate_input_row.
  rewrite Htrue, Hsecret. split; reflexivity.
Qed.

(** A reference to a variable that is not set. *)
Lemma secret_failure_unset_variable :
  Collapsible.generate_input_row (H := sample_collaborators)
    (sample_collapsible "nextcloud" [] []) "smtp_password"
    (VDict [("value_from", VDict [("env", VStr "NEXTCLOUD_SMTP_PASSWORD")])])
  = Raise (ExternalError "variable not set") /\
  Flat.generate_input_row (H := sample_collaborators)
    (sample_flat "nextcloud" [] []) "smtp_password"
    (VDict [("value_from", VDict [("env", VStr "NEXTCLOUD_SMTP_PASSWORD")])])
  = Raise (ExternalError "variable not set").
Proof.
  apply (secret_failure_aborts_row (H := sample_collaborators)
           (sample_collapsible "nextcloud" [] [])
           (sample_flat "nextcloud" [] []) "smtp_password"
           [("value_from", VDict [("env", VStr "NEXTCLOUD_SMTP_PASSWORD")])]
           (ExternalError "variable not set"));
    [discriminate | reflexivity].
Defined.

(** X17.  A sequence that cannot be joined gives no row in either class:
    [TypeError] when its first item is a string and a later item is not, or
    when its first item is a sequence holding an item that is no string;
    [UnboundLocalError] (the local [sequence_value] was never assigned) when
    its first item is neither a string nor a sequence. *)
Theorem unjoinable_sequence_aborts_row `{Collaborators}
        (c : Collapsible.t) (f : Flat.t) key first rest e :
  (exists s, first = VStr s /\ all_strs rest = None /\ e = TypeError)
  \/ (exists inner,
        first = VList inner /\ all_strs inner = None /\ e = TypeError)
  \/ (is_scalar first = true /\ (forall s, first <> VStr s)
      /\ e = UnboundLocalError "sequence_value")
  \/ (exists d, first = VDict d /\ e = UnboundLocalError "sequence_value") ->
  Collapsible.generate_input_row c key (VList (first :: rest)) = Raise e /\
  Flat.generate_input_row f key (VList (first :: rest)) = Raise e.
Proof.
  intros Hshape.
  assert (Hjoin :
    match first :: rest with
    | VStr _ :: _ => str_join ", " (first :: rest)
    | VList inner :: _ => str_join ", " inner
    | _ :: _ => Raise (UnboundLocalError "sequence_value")
    | [] => Raise IndexError
    end = Raise e).
  { destruct Hshape as [(s & -> & Hrest & ->)
                       | [(inner & -> & Hinner & ->)
                         | [(Hscalar & Hstr & ->) | (d & -> & ->)]]].
    - unfold str_join. simpl. now rewrite Hrest.
    - unfold str_join. now rewrite Hinner.
    - destruct first; try reflexivity; try discriminate Hscalar.
      now destruct (Hstr s).
    - reflexivity. }
  unfold Collapsible.generate_input_row, Flat.generate_input_row.
  cbn [truthy]. rewrite Hjoin. split; reflexivity.
Qed.

(** A sequence of ports, and one of a host and a port. *)
Lemma unjoinable_sequence_ports :
  Collapsible.generate_input_row (H := sample_collaborators)
    (sample_collapsible "nextcloud" [] []) "hosts"
    (VList [VStr "example.com"; VInt 8080]) = Raise TypeError /\
  Flat.generate_input_row (H := sample_collaborators)
    (sample_flat "nextcloud" [] []) "hosts"
    (VList [VStr "example.com"; VInt 8080]) = Raise TypeError.
Proof.
  apply (unjoinable_sequence_aborts_row (H := sample_collaborators)
           (sample_collapsible "nextcloud" [] [])
           (sample_flat "nextcloud" [] []) "hosts"
           (VStr "example.com") [VInt 8080] TypeError).
  left. exists "example.com". repeat split.
Defined.

Lemma append_length (s t : string) :
  String.length (s ++ t) = String.length s + String.length t.
Proof.
  induction s as [|ch s IH]; simpl; [reflexivity | now rewrite IH].
Qed.

Lemma append_inj_l (p s t : string) : p ++ s = p ++ t -> s = t.
Proof.
  induction p as [|ch p IH]; simpl; [auto|].
  intros [= Heq]. exact (IH Heq).
Qed.

Lemma append_inj_r (t : string) : forall s1 s2, s1 ++ t = s2 ++ t -> s1 = s2.
Proof.
  induction s1 as [|c1 s1 IH]; intros [|c2 s2] Heq; simpl in Heq.
  - reflexivity.
  - apply (f_equal String.length) in Heq. simpl in Heq.
    rewrite append_length in Heq. lia.
  - apply (f_equal String.length) in Heq. simpl in Heq.
    rewrite append_length in Heq. lia.
  - injection Heq as -> Heq. now rewrite (IH s2 Heq).
Qed.

Lemma input_id_inj owner key1 key2 :
  String.concat "-" [owner; key1; "input"]
  = String.concat "-" [owner; key2; "input"] ->
  key1 = key2.
Proof.
  cbn [String.concat]. intros Heq.
  apply append_inj_l in Heq. apply (append_inj_l "-") in Heq.
  exact (append_inj_r _ _ _ Heq).
Qed.

(** X18.  Within one widget, rows built for different keys have inputs
    with different ids (and different names), in either class. *)
Theorem rows_of_distinct_keys_have_distinct_ids `{Collaborators}
        (c : Collapsible.t) (f : Flat.t) key1 raw1 row1 key2 raw2 row2 :
  Flat.app_name f = Collapsible.app_name c ->
  Flat.tooltips f = Collapsible.tooltips c ->
  Collapsible.generate_input_row c key1 raw1 = Ok row1
  \/ Flat.generate_input_row f key1 raw1 = Ok row1 ->
  Collapsible.generate_input_row c key2 raw2 = Ok row2
  \/ Flat.generate_input_row f key2 raw2 = Ok row2 ->
  key1 <> key2 ->
  id (row_input row1) <> id (row_input row2) /\
  name (row_input row1) <> name (row_input row2).
Proof.
  intros Happ Htips Hrow1 Hrow2 Hne.
  destruct (row_identity c f key1 raw1 row1 Happ Htips Hrow1)
    as (Hname1 & Hid1 & _).
  destruct (row_identity c f key2 raw2 row2 Happ Htips Hrow2)
    as (Hname2 & Hid2 & _).
  rewrite Hname1, Hname2, Hid1, Hid2. split; [|exact Hne].
  intros Heq. exact (Hne (input_id_inj _ _ _ Heq)).
Qed.

(** The two rows of "nextcloud". *)
Lemma rows_of_distinct_keys_nextcloud :
  id (row_input sample_user_row) <> id (row_input sample_secret_row) /\
  name (row_input sample_user_row) <> name (row_input sample_secret_row).
Proof.
  apply (rows_of_distinct_keys_have_distinct_ids (H := sample_collaborators)
           (sample_collapsible "nextcloud" [] [])
           (sample_flat "nextcloud" [] [])
           "admin_user" (VStr "admin") sample_user_row
           "admin_password"
           (VDict [("value_from",
                    VDict [("env", VStr "NEXTCLOUD_ADMIN_PASSWORD")])])
           sample_secret_row);
    solve [reflexivity | left; reflexivity | right; reflexivity | discriminate].
Defined.

(** ** Mounting *)

(** What the loop of the collapsible class mounts: one row for each input,
    in the order of the inputs. *)
Lemma collapsible_mount_rows_inv `{Collaborators}
      (c : Collapsible.t) items : forall mounted,
  Collapsible.mount_rows c items = Ok mounted ->
  exists rows,
    mounted = map MountedRow rows /\
    Forall2 (fun item row =>
               Collapsible.generate_input_row c (fst item) (snd item) = Ok row)
            items rows.
Proof.
  induction items as [|[key raw] rest IH]; intros mounted Hmount;
    cbn [Collapsible.mount_rows] in Hmount.
  - injection Hmount as <-. exists []. split; [reflexivity | constructor].
  - unfold Collapsible.generate_row in Hmount.
    destruct (Collapsible.generate_input_row c key raw) as [row|e] eqn:Hrow;
      [|discriminate Hmount].
    cbn [rbind] in Hmount.
    destruct (Collapsible.mount_rows c rest) as [more|e]; [|discriminate Hmount].
    cbn [rbind] in Hmount. injection Hmount as <-.
    destruct (IH more eq_refl) as (rows & -> & Hrows).
    exists (row :: rows). split; [reflexivity|].
    constructor; [exact Hrow | exact Hrows].
Qed.

(** The same for the flat class, over the inputs it renders. *)
Lemma flat_mount_rows_inv `{Collaborators}
      (f : Flat.t) items : forall mounted,
  Flat.mount_rows f items = Ok mounted ->
  exists rows,
    mounted = map MountedRow rows /\
    Forall2 (fun item row =>
               Flat.generate_input_row f (fst item) (snd item) = Ok row)
            (rendered_by_flat items) rows.
Proof.
  induction items as [|[key raw] rest IH]; intros mounted Hmount;
    cbn [Flat.mount_rows] in Hmount.
  - injection Hmount as <-. exists []. split; [reflexivity | constructor].
  - unfold rendered_by_flat. cbn [filter fst].
    destruct (negb (String.eqb key "trusted_key_servers")).
    + unfold Flat.generate_row in Hmount.
      destruct (Flat.generate_input_row f key raw) as [row|e] eqn:Hrow;
        [|discriminate Hmount].
      cbn [rbind] in Hmount.
      destruct (Flat.mount_rows f rest) as [more|e]; [|discriminate Hmount].
      cbn [rbind] in Hmount. injection Hmount as <-.
      destruct (IH more eq_refl) as (rows & -> & Hrows).
      exists (row :: rows). split; [reflexivity|].
      constructor; [exact Hrow | exact Hrows].
    + exact (IH mounted Hmount).
Qed.

Lemma on_mount_collapsible_inv `{Collaborators} (c : Collapsible.t) mounted :
  Collapsible.on_mount c = Ok mounted ->
  Collapsible.inputs c <> [] /\
  exists rows,
    mounted = (map MountedRow rows
               ++ trailing_button (Collapsible.add_fields_button c))%list /\
    Forall2 (fun item row =>
               Collapsible.generate_input_row c (fst item) (snd item) = Ok row)
            (Collapsible.inputs c) rows.
Proof.
  unfold Collapsible.on_mount, Collapsible.query_grid,
    Collapsible.compose_yields_grid.
  destruct (Collapsible.inputs c) as [|item rest] eqn:Hinputs;
    cbn [truthy rbind]; [discriminate|].
  intros Hmount.
  destruct (Collapsible.mount_rows c (item :: rest)) as [more|e] eqn:Hrows;
    [|discriminate Hmount].
  cbn [rbind] in Hmount. injection Hmount as <-.
  destruct (collapsible_mount_rows_inv c _ _ Hrows) as (rows & -> & Hall).
  split; [discriminate|]. exists rows. split; [reflexivity | exact Hall].
Qed.

Lemma on_mount_flat_inv `{Collaborators} (f : Flat.t) mounted :
  Flat.on_mount f = Ok mounted ->
  exists rows,
    mounted = (map MountedRow rows
               ++ trailing_button (Flat.add_fields_button f))%list /\
    Forall2 (fun item row =>
               Flat.generate_input_row f (fst item) (snd item) = Ok row)
            (rendered_by_flat (Flat.inputs f)) rows.
Proof.
  unfold Flat.on_mount, Flat.query_grid, Flat.compose_yields_grid.
  cbn [rbind].
  destruct (Flat.inputs f) as [|item rest] eqn:Hinputs; cbn [truthy rbind].
  - intros [= <-]. exists []. split; [reflexivity | constructor].
  - intros Hmount.
    destruct (Flat.mount_rows f (item :: rest)) as [more|e] eqn:Hrows;
      [|discriminate Hmount].
    cbn [rbind] in Hmount. injection Hmount as <-.
    destruct (flat_mount_rows_inv f _ _ Hrows) as (rows & -> & Hall).
    exists rows. split; [reflexivity | exact Hall].
Qed.

Lemma rows_named_after_items {A} (gen : A -> result Row) (key_of : A -> string)
      items rows :
  (forall item row, gen item = Ok row -> name (row_input row) = key_of item) ->
  Forall2 (fun item row => gen item = Ok row) items rows ->
  map (fun row => name (row_input row)) rows = map key_of items.
Proof.
  intros Hname Hall.
  induction Hall as [|item row items rows Hrow _ IH]; [reflexivity|].
  cbn [map]. now rewrite (Hname item row Hrow), IH.
Qed.

(** X19.  When [on_mount] ends well, the grid holds one row for each input
    the class renders, in the order of the inputs mapping, each named after
    its key, and then the button "new field" if the widget is to have one.
    The collapsible class renders every input; the flat class all but
    "trusted_key_servers". *)
Theorem mounted_rows_follow_the_inputs `{Collaborators}
        (c : Collapsible.t) (f : Flat.t) mounted :
  (Collapsible.on_mount c = Ok mounted ->
   exists rows,
     mounted = (map MountedRow rows
                ++ trailing_button (Collapsible.add_fields_button c))%list /\
     map (fun row => name (row_input row)) rows
     = map fst (Collapsible.inputs c)) /\
  (Flat.on_mount f = Ok mounted ->
   exists rows,
     mounted = (map MountedRow rows
                ++ trailing_button (Flat.add_fields_button f))%list /\
     map (fun row => name (row_input row)) rows
     = map fst (rendered_by_flat (Flat.inputs f))).
Proof.
  split; intros Hmount.
  - destruct (on_mount_collapsible_inv c mounted Hmount)
      as (_ & rows & -> & Hall).
    exists rows. split; [reflexivity|].
    apply (rows_named_after_items
             (fun item => Collapsible.generate_input_row c (fst item) (snd item))
             fst _ _); [|exact Hall].
    intros item row Hrow.
    apply (row_identity c
             (Flat.mk (Collapsible.app_name c) "" "" []
                      (Collapsible.tooltips c) false)
             (fst item) (snd item) row eq_refl eq_refl).
    left. exact Hrow.
  - destruct (on_mount_flat_inv f mounted Hmount) as (rows & -> & Hall).
    exists rows. split; [reflexivity|].
    apply (rows_named_after_items
             (fun item => Flat.generate_input_row f (fst item) (snd item))
             fst _ _); [|exact Hall].
    intros item row Hrow.
    apply (row_identity
             (Collapsible.mk (Flat.app_name f) "" "" []
                             (Flat.tooltips f) false)
             f (fst item) (snd item) row eq_refl eq_refl).
    right. exact Hrow.
Qed.

(** X20.  The collapsible class mounts only if the inputs mapping is not
    empty and every input has a value that counts as true or a tooltip that
    is not empty. *)
Theorem collapsible_mounts_only_filled_inputs `{Collaborators}
        (c : Collapsible.t) mounted :
  Collapsible.on_mount c = Ok mounted ->
  Collapsible.inputs c <> [] /\
  Forall (fun item =>
            truthy (snd item) = true
            \/ tooltip_truthy (dict_get (Collapsible.tooltips c) (fst item))
               = true)
         (Collapsible.inputs c).
Proof.
  intros Hmount.
  destruct (on_mount_collapsible_inv c mounted Hmount)
    as (Hne & rows & _ & Hall).
  split; [exact Hne|]. clear Hne Hmount.
  induction Hall as [|item row items rows' Hrow _ IH]; [constructor|].
  constructor; [|exact IH].
  unfold Collapsible.generate_input_row in Hrow.
  destruct (truthy (snd item)); [left; reflexivity|].
  destruct (tooltip_truthy (dict_get (Collapsible.tooltips c) (fst item)));
    [right; reflexivity | discriminate Hrow].
Qed.

Lemma flat_string_row `{Collaborators} (f : Flat.t) key raw :
  is_str raw = true ->
  exists row, Flat.generate_input_row f key raw = Ok row.
Proof.
  intros Hstr. destruct raw; try discriminate Hstr.
  unfold Flat.generate_input_row, tooltip_truthy.
  destruct (truthy (VStr s));
    (destruct (dict_get (Flat.tooltips f) key) as [explicit|];
     [destruct (String.eqb explicit "")|]);
    destruct (String.eqb key "s3_provider");
    cbn; eexists; reflexivity.
Qed.

Lemma flat_mount_rows_strings `{Collaborators} (f : Flat.t) items :
  Forall (fun item => is_str (snd item) = true) items ->
  exists rows,
    Flat.mount_rows f items = Ok (map MountedRow rows) /\
    length rows = length (rendered_by_flat items).
Proof.
  intros Hall.
  induction Hall as [|[key raw] rest Hstr _ (rows & Hrows & Hlen)].
  - exists []. split; reflexivity.
  - cbn [Flat.mount_rows]. unfold rendered_by_flat. cbn [filter fst].
    destruct (negb (String.eqb key "trusted_key_servers")).
    + destruct (flat_string_row f key raw Hstr) as (row & Hrow).
      unfold Flat.generate_row. rewrite Hrow, Hrows. cbn [rbind].
      exists (row :: rows). split; [reflexivity|].
      cbn [length]. now rewrite Hlen.
    + exists rows. split; [exact Hrows | exact Hlen].
Qed.

(** X21.  The flat class mounts any inputs whose values are all strings,
    empty ones included and whatever the tooltips: one row for each key
    other than "trusted_key_servers", then the button if wanted. *)
Theorem flat_mounts_all_strings `{Collaborators} (f : Flat.t) :
  Forall (fun item => is_str (snd item) = true) (Flat.inputs f) ->
  exists rows,
    Flat.on_mount f
    = Ok (map MountedRow rows
          ++ trailing_button (Flat.add_fields_button f))%list /\
    length rows = length (rendered_by_flat (Flat.inputs f)).
Proof.
  intros Hall.
  destruct (flat_mount_rows_strings f _ Hall) as (rows & Hrows & Hlen).
  unfold Flat.on_mount, Flat.query_grid, Flat.compose_yields_grid.
  cbn [rbind].
  destruct (Flat.inputs f) as [|item rest] eqn:Hinputs; cbn [truthy].
  - exists []. split; [reflexivity|]. reflexivity.
  - rewrite Hrows. cbn [rbind]. exists rows. split; [reflexivity | exact Hlen].
Qed.

(** X22.  Without inputs the collapsible class cannot mount: [compose]
    yielded no grid, so the lookup of the grid raises [NoMatches], also when
    a button is wanted.  The flat class mounts the button alone, or
    nothing. *)
Theorem mounting_without_inputs `{Collaborators}
        (c : Collapsible.t) (f : Flat.t) :
  Collapsible.inputs c = [] ->
  Flat.inputs f = [] ->
  Collapsible.on_mount c = Raise NoMatches /\
  Flat.on_mount f = Ok (trailing_button (Flat.add_fields_button f)).
Proof.
  intros Hc Hf.
  unfold Collapsible.on_mount, Collapsible.query_grid,
    Collapsible.compose_yields_grid,
    Flat.on_mount, Flat.query_grid, Flat.compose_yields_grid.
  rewrite Hc, Hf. split; reflexivity.
Qed.

(** The one input of "nextcloud", mounted by the collapsible class. *)
Lemma mounted_rows_nextcloud :
  exists rows,
    [MountedRow sample_user_row]
    = (map MountedRow rows ++ trailing_button false)%list /\
    map (fun row => name (row_input row)) rows = ["admin_user"].
Proof.
  apply (proj1 (mounted_rows_follow_the_inputs (H := sample_collaborators)
                  (sample_collapsible "nextcloud"
                     [("admin_user", VStr "admin")] [])
                  (sample_flat "nextcloud" [("admin_user", VStr "admin")] [])
                  [MountedRow sample_user_row])).
  reflexivity.
Defined.

(** The same widget had a filled input. *)
Lemma collapsible_mounts_only_filled_nextcloud :
  [("admin_user", VStr "admin")] <> [] /\
  Forall (fun item =>
            truthy (snd item) = true
            \/ tooltip_truthy (dict_get [] (fst item)) = true)
         [("admin_user", VStr "admin")].
Proof.
  apply (collapsible_mounts_only_filled_inputs (H := sample_collaborators)
           (sample_collapsible "nextcloud" [("admin_user", VStr "admin")] [])
           [MountedRow sample_user_row]).
  reflexivity.
Defined.

(** Three strings, one of them empty and one under the key the flat
    class leaves out. *)
Lemma flat_mounts_all_strings_nextcloud :
  exists rows,
    Flat.on_mount (H := sample_collaborators)
      (sample_flat "nextcloud"
         [("admin_user", VStr "");
          ("trusted_key_servers", VStr "keys.openpgp.org");
          ("admin_email", VStr "a@example.com")] [])
    = Ok (map MountedRow rows ++ trailing_button false)%list /\
    length rows = 2.
Proof.
  apply (flat_mounts_all_strings (H := sample_collaborators)
           (sample_flat "nextcloud"
              [("admin_user", VStr "");
               ("trusted_key_servers", VStr "keys.openpgp.org");
               ("admin_email", VStr "a@example.com")] [])).
  repeat constructor.
Defined.

(** Two widgets without inputs. *)
Lemma mounting_without_inputs_nextcloud :
  Collapsible.on_mount (H := sample_collaborators)
    (sample_collapsible "nextcloud" [] []) = Raise NoMatches /\
  Flat.on_mount (H := sample_collaborators) (sample_flat "nextcloud" [] [])
  = Ok (trailing_button false).
Proof.
  apply (mounting_without_inputs (H := sample_collaborators)
           (sample_collapsible "nextcloud" [] [])
           (sample_flat "nextcloud" [] [])); reflexivity.
Defined.

Lemma collapsible_mount_rows_abort `{Collaborators}
      (c : Collapsible.t) before key raw after e :
  Forall (fun item =>
            exists row,
              Collapsible.generate_input_row c (fst item) (snd item) = Ok row)
         before ->
  Collapsible.generate_input_row c key raw = Raise e ->
  Collapsible.mount_rows c (before ++ (key, raw) :: after) = Raise e.
Proof.
  intros Hbefore Hrow.
  induction Hbefore as [|[key' raw'] rest (row & Hrow') _ IH];
    cbn [app Collapsible.mount_rows]; unfold Collapsible.generate_row.
  - now rewrite Hrow.
  - cbn [fst snd] in Hrow'. rewrite Hrow'. cbn [rbind].
    unfold Collapsible.generate_row in IH. now rewrite IH.
Qed.

Lemma flat_mount_rows_abort `{Collaborators}
      (f : Flat.t) before key raw after e :
  Forall (fun item =>
            exists row,
              Flat.generate_input_row f (fst item) (snd item) = Ok row)
         (rendered_by_flat before) ->
  key <> "trusted_key_servers" ->
  Flat.generate_input_row f key raw = Raise e ->
  Flat.mount_rows f (before ++ (key, raw) :: after) = Raise e.
Proof.
  intros Hbefore Hkey Hrow.
  induction before as [|[key' raw'] rest IH];
    cbn [app Flat.mount_rows]; unfold Flat.generate_row.
  - destruct (String.eqb_spec key "trusted_key_servers") as [Heq|_];
      [contradiction|].
    cbn [negb]. now rewrite Hrow.
  - unfold rendered_by_flat in Hbefore. cbn [filter fst] in Hbefore.
    destruct (negb (String.eqb key' "trusted_key_servers")).
    + inversion Hbefore as [|item items (row & Hrow') Hrest]; subst.
      cbn [fst snd] in Hrow'. rewrite Hrow'. cbn [rbind].
      unfold Flat.generate_row in IH. now rewrite (IH Hrest).
    + unfold Flat.generate_row in IH. exact (IH Hbefore).
Qed.

(** X23.  The first input whose row cannot be built stops the mounting of
    the whole widget, with the exception of that row: no grid content is
    returned, whatever the inputs after it.  (For the flat class the input
    is one it renders.) *)
Theorem failing_row_aborts_mount `{Collaborators}
        (c : Collapsible.t) (f : Flat.t) before key raw after e :
  (Collapsible.inputs c = (before ++ (key, raw) :: after)%list ->
   Forall (fun item =>
             exists row,
               Collapsible.generate_input_row c (fst item) (snd item) = Ok row)
          before ->
   Collapsible.generate_input_row c key raw = Raise e ->
   Collapsible.on_mount c = Raise e) /\
  (Flat.inputs f = (before ++ (key, raw) :: after)%list ->
   Forall (fun item =>
             exists row,
               Flat.generate_input_row f (fst item) (snd item) = Ok row)
          (rendered_by_flat before) ->
   key <> "trusted_key_servers" ->
   Flat.generate_input_row f key raw = Raise e ->
   Flat.on_mount f = Raise e).
Proof.
  split.
  - intros Hinputs Hbefore Hrow.
    unfold Collapsible.on_mount, Collapsible.query_grid,
      Collapsible.compose_yields_grid.
    rewrite Hinputs.
    rewrite (collapsible_mount_rows_abort c before key raw after e
               Hbefore Hrow).
    destruct before; reflexivity.
  - intros Hinputs Hbefore Hkey Hrow.
    unfold Flat.on_mount, Flat.query_grid, Flat.compose_yields_grid.
    rewrite Hinputs.
    rewrite (flat_mount_rows_abort f before key raw after e
               Hbefore Hkey Hrow).
    destruct before; reflexivity.
Qed.

(** An empty password after a filled user name, in the collapsible class. *)
Lemma failing_row_aborts_mount_nextcloud :
  Collapsible.on_mount (H := sample_collaborators)
    (sample_collapsible "nextcloud"
       [("admin_user", VStr "admin"); ("admin_password", VStr "");
        ("admin_email", VStr "a@example.com")] [])
  = Raise (KeyError "password").
Proof.
  apply (proj1 (failing_row_aborts_mount (H := sample_collaborators)
                  (sample_collapsible "nextcloud"
                     [("admin_user", VStr "admin");
                      ("admin_password", VStr "");
                      ("admin_email", VStr "a@example.com")] [])
                  (sample_flat "nextcloud" [] [])
                  [("admin_user", VStr "admin")] "admin_password" (VStr "")
                  [("admin_email", VStr "a@example.com")]
                  (KeyError "password"))).
  - reflexivity.
  - repeat constructor. eexists. reflexivity.
  - reflexivity.
Defined.

(** ** Storing what is already there, and what a row shows *)

Lemma dict_set_same {V} (d : list (string * V)) k x :
  dict_get d k = Some x -> dict_set d k x = d.
Proof.
  induction d as [|[k' v] rest IH]; simpl; [discriminate|].
  destruct (String.eqb k' k) eqn:E.
  - now intros [= ->].
  - intros Hget. now rewrite (IH Hget).
Qed.

Lemma update_path_assign_same path : forall v d k x,
  get_path v path = Ok (VDict d) ->
  dict_get d k = Some x ->
  update_path v path (fun o => setitem o k x) = Ok v.
Proof.
  induction path as [|k0 rest IH]; intros v d k x Hget Hfield; simpl in *.
  - injection Hget as ->. simpl. now rewrite (dict_set_same d k x Hfield).
  - destruct (getitem v k0) as [child|e] eqn:Hchild; simpl in Hget;
      [|discriminate].
    simpl. rewrite (IH child d k x Hget Hfield). simpl.
    destruct (getitem_dict _ _ _ Hchild) as (d0 & -> & Hd0). simpl.
    now rewrite (dict_set_same d0 k0 child Hd0).
Qed.

(** X24.  A valid edit of an input that is no password input, storing what
    the field already holds (the text itself, or for a list-coerced owner
    or a text with a comma its sanitized list): either class leaves the
    state exactly as it is, and still asks once for the document to be
    written. *)
Theorem unchanged_edit_rewrites_same_document
        (c : Collapsible.t) (f : Flat.t) ev st run vals :
  Flat.app_name f = Collapsible.app_name c ->
  run = Collapsible.input_validation c ev st
  \/ run = Flat.input_validation f ev st ->
  is_valid (validation_result ev) = true ->
  password (input ev) = false ->
  get_path (cfg st) ["apps"; Collapsible.app_name c; "init"; "values"]
  = Ok (VDict vals) ->
  dict_get vals (name (input ev))
  = Some (plain_stored (Collapsible.app_name c) (value (input ev))) ->
  run = (Ok tt, st, [WriteYaml (cfg st)]).
Proof.
  intros Happ Hrun Hvalid Hpw Hget Hfield.
  rewrite (either_input_validation c f ev st run Happ Hrun).
  destruct (plain_edit_run_full c ev st vals Hvalid Hpw Hget)
    as (doc & Hr & Hup & _).
  rewrite (update_path_assign_same _ _ _ _ _ Hget Hfield) in Hup.
  injection Hup as <-. rewrite Hr. destruct st; reflexivity.
Qed.

(** The user name of "nextcloud", left as "admin". *)
Lemma unchanged_edit_admin :
  Collapsible.input_validation
    (sample_collapsible "nextcloud" [] [])
    (sample_edit "nextcloud" "admin_user" false "admin" [])
    (sample_tui "nextcloud" [("admin_user", VStr "admin")])
  = (Ok tt, sample_tui "nextcloud" [("admin_user", VStr "admin")],
     [WriteYaml (sample_cfg "nextcloud" [("admin_user", VStr "admin")])]).
Proof.
  apply (unchanged_edit_rewrites_same_document
           (sample_collapsible "nextcloud" [] [])
           (sample_flat "nextcloud" [] [])
           (sample_edit "nextcloud" "admin_user" false "admin" [])
           (sample_tui "nextcloud" [("admin_user", VStr "admin")])
           _ [("admin_user", VStr "admin")]);
    solve [reflexivity | left; reflexivity].
Defined.

(** *** Joining and sanitizing *)

Lemma split_commas_no_comma s :
  str_contains ","%char s = false -> Util.split_commas s = [s].
Proof.
  induction s as [|ch s IH]; simpl; [reflexivity|].
  destruct (Ascii.eqb ch ","%char); simpl; [discriminate|].
  intros Hrest. now rewrite (IH Hrest).
Qed.

Lemma split_commas_append s t :
  str_contains ","%char s = false ->
  Util.split_commas (s ++ String ","%char t) = s :: Util.split_commas t.
Proof.
  induction s as [|ch s IH]; simpl; [reflexivity|].
  destruct (Ascii.eqb ch ","%char); simpl; [discriminate|].
  intros Hrest. now rewrite (IH Hrest).
Qed.

Lemma split_commas_joined s rest :
  Forall (fun x => str_contains ","%char x = false) (s :: rest) ->
  Util.split_commas (String.concat ", " (s :: rest))
  = s :: map (String " "%char) rest.
Proof.
  revert s. induction rest as [|s2 rest IH]; intros s Hall.
  - inversion Hall; subst. cbn [String.concat map].
    now apply split_commas_no_comma.
  - inversion Hall as [|x xs Hs Hrest]; subst.
    change (String.concat ", " (s :: s2 :: rest))
      with (s ++ String ","%char
                   (String " "%char (String.concat ", " (s2 :: rest)))).
    rewrite (split_commas_append _ _ Hs).
    cbn [Util.split_commas]. cbn [Ascii.eqb Bool.eqb].
    rewrite (IH s2 Hrest). reflexivity.
Qed.

Lemma strip_after_space s : Util.strip (String " "%char s) = Util.strip s.
Proof. reflexivity. Qed.

Lemma is_clean_item_spec s :
  is_clean_item s = true ->
  s <> "" /\ str_contains ","%char s = false /\ Util.strip s = s.
Proof.
  unfold is_clean_item. intros Hclean.
  apply andb_true_iff in Hclean. destruct Hclean as [Hclean Hstrip].
  apply andb_true_iff in Hclean. destruct Hclean as [Hne Hcomma].
  repeat split.
  - intros ->. discriminate Hne.
  - now apply negb_true_iff in Hcomma.
  - now apply String.eqb_eq.
Qed.

Lemma sanitized_items items :
  Forall (fun x => is_clean_item x = true) items ->
  filter (fun x => negb (String.eqb x ""))
         (map Util.strip (map (String " "%char) items))
  = items.
Proof.
  induction 1 as [|x items Hx _ IH]; [reflexivity|].
  destruct (is_clean_item_spec x Hx) as (Hne & _ & Hstrip).
  cbn [map filter]. rewrite strip_after_space, Hstrip, IH.
  destruct (String.eqb_spec x ""); [contradiction | reflexivity].
Qed.

(** Joining clean items with ", " and sanitizing the text gives the items
    back. *)
Lemma sanitized_joined ss :
  ss <> [] ->
  Forall (fun x => is_clean_item x = true) ss ->
  Util.create_sanitized_list (String.concat ", " ss) = ss.
Proof.
  intros Hne Hall. destruct ss as [|s rest]; [contradiction|].
  unfold Util.create_sanitized_list.
  rewrite split_commas_joined.
  - inversion Hall as [|x xs Hs Hrest]; subst.
    destruct (is_clean_item_spec s Hs) as (Hs_ne & _ & Hstrip).
    cbn [map filter]. rewrite Hstrip, (sanitized_items rest Hrest).
    destruct (String.eqb_spec s ""); [contradiction | reflexivity].
  - eapply Forall_impl; [|exact Hall].
    intros x Hx. now destruct (is_clean_item_spec x Hx) as (_ & Hcomma & _).
Qed.

Lemma str_contains_append ch s t :
  str_contains ch (s ++ t) = str_contains ch s || str_contains ch t.
Proof.
  induction s as [|c0 s IH]; simpl; [reflexivity|].
  now rewrite IH, orb_assoc.
Qed.

Lemma joined_has_comma s s2 rest :
  str_contains ","%char (String.concat ", " (s :: s2 :: rest)) = true.
Proof.
  change (String.concat ", " (s :: s2 :: rest))
    with (s ++ String ","%char
                 (String " "%char (String.concat ", " (s2 :: rest)))).
  rewrite str_contains_append. cbn [str_contains Ascii.eqb Bool.eqb].
  cbn. now rewrite orb_true_r.
Qed.

(** The row of a non-empty sequence of strings, in either class. *)
Lemma string_list_row `{Collaborators}
      (c : Collapsible.t) (f : Flat.t) key ss :
  Flat.app_name f = Collapsible.app_name c ->
  Flat.tooltips f = Collapsible.tooltips c ->
  ss <> [] ->
  exists row,
    Collapsible.generate_input_row c key (VList (map VStr ss)) = Ok row /\
    Flat.generate_input_row f key (VList (map VStr ss)) = Ok row /\
    name (row_input row) = key /\
    password (row_input row) = false /\
    value (row_input row) = Some (VStr (String.concat ", " ss)).
Proof.
  intros Happ Htips Hne.
  remember (map VStr ss) as l eqn:Hl.
  assert (Htrue : truthy (VList l) = true).
  { rewrite Hl. destruct ss; [contradiction | reflexivity]. }
  assert (Hjoin :
    match l with
    | VStr _ :: _ => str_join ", " l
    | VList inner :: _ => str_join ", " inner
    | _ :: _ => Raise (UnboundLocalError "sequence_value")
    | [] => Raise IndexError
    end = Ok (String.concat ", " ss)).
  { rewrite Hl. destruct ss as [|s rest]; [contradiction|].
    cbn [map]. apply (str_join_strs ", " (s :: rest)). }
  rewrite (generate_input_row_agree c f key _ Happ Htips Htrue).
  unfold Collapsible.generate_input_row. rewrite Htrue.
  rewrite Hjoin. cbn [rbind].
  cbn [keys_password with_value with_password ik_password].
  destruct (tooltip_truthy (dict_get (Collapsible.tooltips c) key));
    destruct (String.eqb key "s3_provider");
    cbn [negb rbind];
    eexists; (split; [reflexivity|]); repeat split.
Qed.

(** X25.  A sequence of clean strings (none empty, none with a comma or
    with white space at an end) of at least two items, or of a list-coerced
    owner: either class shows it as the items joined by ", ", and a valid
    edit event of that input carrying the shown text stores the same
    sequence again; if the document held that sequence under the key, the
    run leaves the state exactly as it is.  ([create_sanitized_list] is the
    one modelled from its description.) *)
Theorem shown_list_is_stored_back `{Collaborators}
        (c : Collapsible.t) (f : Flat.t) key ss ev st run vals :
  Flat.app_name f = Collapsible.app_name c ->
  Flat.tooltips f = Collapsible.tooltips c ->
  ss <> [] ->
  Forall (fun item => is_clean_item item = true) ss ->
  2 <= length ss
  \/ str_in (Collapsible.app_name c) ["metallb"; "vouch"] = true ->
  run = Collapsible.input_validation c ev st
  \/ run = Flat.input_validation f ev st ->
  is_valid (validation_result ev) = true ->
  get_path (cfg st) ["apps"; Collapsible.app_name c; "init"; "values"]
  = Ok (VDict vals) ->
  (exists row,
     Collapsible.generate_input_row c key (VList (map VStr ss)) = Ok row /\
     Flat.generate_input_row f key (VList (map VStr ss)) = Ok row /\
     name (input ev) = name (row_input row) /\
     password (input ev) = password (row_input row) /\
     Some (VStr (value (input ev))) = value (row_input row)) ->
  outcome run = Ok tt /\
  get_path (cfg (final run))
           ["apps"; Collapsible.app_name c; "init"; "values"; key]
  = Ok (VList (map VStr ss)) /\
  (dict_get vals key = Some (VList (map VStr ss)) -> final run = st).
Proof.
  intros Happ Htips Hne Hclean Hlist Hrun Hvalid Hget
         (row & Hrow & _ & Hname & Hpw & Hshown).
  destruct (string_list_row c f key ss Happ Htips Hne)
    as (row' & Hrow' & _ & Hname' & Hpw' & Hshown').
  rewrite Hrow in Hrow'. injection Hrow' as <-.
  rewrite Hname' in Hname. rewrite Hpw' in Hpw.
  rewrite Hshown' in Hshown. injection Hshown as Htext.
  assert (Hstored :
    plain_stored (Collapsible.app_name c) (value (input ev))
    = VList (map VStr ss)).
  { unfold plain_stored. rewrite Htext.
    replace (str_in (Collapsible.app_name c) ["metallb"; "vouch"]
             || str_contains ","%char (String.concat ", " ss)) with true.
    - now rewrite (sanitized_joined ss Hne Hclean).
    - symmetry. apply orb_true_iff.
      destruct Hlist as [Hlen | Howner]; [right | left; exact Howner].
      destruct ss as [|s [|s2 rest]]; cbn [length] in Hlen; try lia.
      apply joined_has_comma. }
  rewrite (either_input_validation c f ev st run Happ Hrun).
  destruct (plain_edit_run_full c ev st vals Hvalid Hpw Hget)
    as (doc & Hr & Hup & Hget').
  rewrite Hr. cbn [outcome final fst snd cfg].
  rewrite Hname, Hstored in *.
  split; [reflexivity | split].
  - etransitivity; [exact (get_path_app _ _ [key] _ Hget')|].
    simpl. now rewrite dict_get_set_same.
  - intros Hfield.
    rewrite (update_path_assign_same _ _ _ _ _ Hget Hfield) in Hup.
    injection Hup as <-. destruct st; reflexivity.
Qed.

(** X26.  A sequence of one string without comma, for an owner that is not
    list-coerced: either class shows the string, and a valid edit event of
    that input carrying the shown text stores the string itself, so the
    field holds a text where it held a sequence. *)
Theorem shown_single_item_is_stored_as_text `{Collaborators}
        (c : Collapsible.t) (f : Flat.t) key s ev st run vals :
  Flat.app_name f = Collapsible.app_name c ->
  Flat.tooltips f = Collapsible.tooltips c ->
  str_contains ","%char s = false ->
  str_in (Collapsible.app_name c) ["metallb"; "vouch"] = false ->
  run = Collapsible.input_validation c ev st
  \/ run = Flat.input_validation f ev st ->
  is_valid (validation_result ev) = true ->
  get_path (cfg st) ["apps"; Collapsible.app_name c; "init"; "values"]
  = Ok (VDict vals) ->
  (exists row,
     Collapsible.generate_input_row c key (VList [VStr s]) = Ok row /\
     Flat.generate_input_row f key (VList [VStr s]) = Ok row /\
     name (input ev) = name (row_input row) /\
     password (input ev) = password (row_input row) /\
     Some (VStr (value (input ev))) = value (row_input row)) ->
  outcome run = Ok tt /\
  get_path (cfg (final run))
           ["apps"; Collapsible.app_name c; "init"; "values"; key]
  = Ok (VStr s).
Proof.
  intros Happ Htips Hcomma Howner Hrun Hvalid Hget
         (row & Hrow & _ & Hname & Hpw & Hshown).
  destruct (string_list_row c f key [s] Happ Htips ltac:(discriminate))
    as (row' & Hrow' & _ & Hname' & Hpw' & Hshown').
  cbn [map] in Hrow'. rewrite Hrow in Hrow'. injection Hrow' as <-.
  rewrite Hname' in Hname. rewrite Hpw' in Hpw.
  rewrite Hshown' in Hshown. cbn [String.concat] in Hshown.
  injection Hshown as Htext.
  rewrite (either_input_validation c f ev st run Happ Hrun).
  destruct (plain_edit_run_full c ev st vals Hvalid Hpw Hget)
    as (doc & Hr & _ & Hget').
  rewrite Hr. cbn [outcome final fst snd cfg].
  split; [reflexivity|].
  etransitivity; [exact (get_path_app _ _ [key] _ Hget')|].
  simpl. rewrite Hname, dict_get_set_same.
  unfold plain_stored. now rewrite Htext, Howner, Hcomma.
Qed.

(** The two addresses of "vouch", shown and stored back. *)
Lemma shown_list_emails :
  let st := sample_tui "vouch"
              [("emails",
                VList [VStr "a@example.com"; VStr "b@example.com"])] in
  let run := Flat.input_validation
               (sample_flat "vouch" [] [])
               (sample_edit "vouch" "emails" false
                            "a@example.com, b@example.com" []) st in
  outcome run = Ok tt /\
  get_path (cfg (final run)) ["apps"; "vouch"; "init"; "values"; "emails"]
  = Ok (VList [VStr "a@example.com"; VStr "b@example.com"]) /\
  (dict_get [("emails", VList [VStr "a@example.com"; VStr "b@example.com"])]
            "emails"
   = Some (VList [VStr "a@example.com"; VStr "b@example.com"]) ->
   final run = st).
Proof.
  apply (shown_list_is_stored_back (H := sample_collaborators)
           (sample_collapsible "vouch" [] [])
           (sample_flat "vouch" [] [])
           "emails" ["a@example.com"; "b@example.com"]
           (sample_edit "vouch" "emails" false
                        "a@example.com, b@example.com" [])
           (sample_tui "vouch"
              [("emails",
                VList [VStr "a@example.com"; VStr "b@example.com"])])
           _
           [("emails", VList [VStr "a@example.com"; VStr "b@example.com"])]).
  - reflexivity.
  - reflexivity.
  - discriminate.
  - repeat constructor.
  - left. simpl. lia.
  - right. reflexivity.
  - reflexivity.
  - reflexivity.
  - eexists. split; [reflexivity|]. repeat split.
Defined.

(** The one host of "nextcloud" becomes a text. *)
Lemma shown_single_item_host :
  let run := Collapsible.input_validation
               (sample_collapsible "nextcloud" [] [])
               (sample_edit "nextcloud" "hosts" false "example.com" [])
               (sample_tui "nextcloud"
                  [("hosts", VList [VStr "example.com"])]) in
  outcome run = Ok tt /\
  get_path (cfg (final run)) ["apps"; "nextcloud"; "init"; "values"; "hosts"]
  = Ok (VStr "example.com").
Proof.
  apply (shown_single_item_is_stored_as_text (H := sample_collaborators)
           (sample_collapsible "nextcloud" [] [])
           (sample_flat "nextcloud" [] [])
           "hosts" "example.com"
           (sample_edit "nextcloud" "hosts" false "example.com" [])
           (sample_tui "nextcloud" [("hosts", VList [VStr "example.com"])])
           _ [("hosts", VList [VStr "example.com"])]).
  - reflexivity.
  - reflexivity.
  - reflexivity.
  - reflexivity.
  - left. reflexivity.
  - reflexivity.
  - reflexivity.
  - eexists. split; [reflexivity|]. repeat split.
Defined.
